(** * gatling-to-influxdb: the discovery-and-tailing pipeline of parser/parser.go

    A shallow embedding of [parser.go] and of the parts of the Go standard
    library it calls ([regexp], [strconv], [os], [path/filepath], [time],
    [math/rand], [errors]), followed by the properties of the pipeline.

    Conventions.
    - A Go [string] and a Go [[]byte] are both sequences of bytes; they are
      [string] here (a list of 8-bit [ascii]).
    - An [int64] is a [Z]; arithmetic that can leave the range is wrapped
      with [wrap64].
    - A [time.Time] is a [Z]: nanoseconds since the Unix epoch.
    - Package-level variables that a function writes are threaded through
      as explicit state; what the environment supplies (the clock, the
      file system, the cancellation context, the random source) is an
      explicit argument of the function that consumes it. *)

From Stdlib Require Import ZArith List String Ascii Bool Lia.
Import ListNotations.
Local Open Scope string_scope.
Local Open Scope Z_scope.

Set Implicit Arguments.
Set Warnings "-register-all".

(* ================================================================= *)
(** * Part I. The Go side: machine integers, errors, regexp           *)
(* ================================================================= *)

(** ** Machine integers *)

(** Two's-complement reduction into the [int64] range. *)
Definition wrap64 (z : Z) : Z := (z + 2 ^ 63) mod 2 ^ 64 - 2 ^ 63.

Definition int64_min : Z := - 2 ^ 63.
Definition int64_max : Z := 2 ^ 63 - 1.
Definition uint64_max : Z := 2 ^ 64 - 1.

(** ** Errors *)

(** The package-level sentinel errors.  [errFound], [errStoppedByUser] and
    [errFatal] are the three [errors.New] values of parser.go (lines 59-61);
    [SkipDir] and [SkipAll] are the two sentinels of [path/filepath].  A
    sentinel is equal (Go's [==] on the interface value) to itself only. *)
Inductive sentinel : Type :=
| errFound
| errStoppedByUser
| errFatal
| SkipDir
| SkipAll.

Inductive errno : Type := ENOENT | EACCES | ENOTDIR | EIO.

Inductive numErr : Type := ErrSyntax | ErrRange.

(** A Go [error] value, as far as this program can tell errors apart. *)
Inductive error : Type :=
| Sentinel (s : sentinel)
| ErrorsNew (msg : string)                       (* a fresh errors.New *)
| Errorf (msg : string)                          (* fmt.Errorf without %w *)
| ErrorfW (msg : string) (wrapped : error)       (* fmt.Errorf with a %w operand *)
| PathError (op path : string) (e : errno)       (* *os.PathError *)
| NumError (fn num : string) (e : numErr).       (* *strconv.NumError *)

Definition sentinel_eqb (a b : sentinel) : bool :=
  match a, b with
  | errFound, errFound
  | errStoppedByUser, errStoppedByUser
  | errFatal, errFatal
  | SkipDir, SkipDir
  | SkipAll, SkipAll => true
  | _, _ => false
  end.

(** [err == s] for a sentinel [s]: identity of the error value. *)
Definition error_is_sentinel (err : error) (s : sentinel) : bool :=
  match err with
  | Sentinel s' => sentinel_eqb s' s
  | _ => false
  end.

(** [errors.Is(err, s)]: [err] or an error it wraps (through %w) is [s]. *)
Fixpoint errors_Is (err : error) (s : sentinel) : bool :=
  match err with
  | Sentinel s' => sentinel_eqb s' s
  | ErrorfW _ e => errors_Is e s
  | _ => false
  end.

(** [err.Error()], up to the rendering of system errors. *)
Fixpoint Error_text (err : error) : string :=
  match err with
  | Sentinel errFound => "Found"
  | Sentinel errStoppedByUser => "Process stopped by user"
  | Sentinel errFatal => "Fatal error"
  | Sentinel SkipDir => "skip this directory"
  | Sentinel SkipAll => "skip everything and stop the walk"
  | ErrorsNew msg => msg
  | Errorf msg => msg
  | ErrorfW msg e => msg ++ Error_text e
  | PathError op path _ => op ++ " " ++ path
  | NumError fn num _ => "strconv." ++ fn ++ ": parsing " ++ num
  end.

(** [os.IsNotExist]. *)
Definition os_IsNotExist (err : option error) : bool :=
  match err with
  | Some (PathError _ _ ENOENT) => true
  | _ => false
  end.

Definition isSome {A : Type} (o : option A) : bool :=
  match o with Some _ => true | None => false end.

(** A value or an error, for functions that return [(T, error)]. *)
Inductive result (A : Type) : Type :=
| Ok (a : A)
| Err (e : error).
Arguments Ok {A} a.
Arguments Err {A} e.

(** ** Regular expressions (package regexp) *)

(** The fragment of RE2 syntax the five line patterns and the directory
    pattern use: character classes, concatenation, alternation, iteration.
    A regexp is matched against bytes.  For these patterns that agrees with
    Go's matching on runes: the only classes are [.] (anything but a
    newline), [\s], [\d] and literal ASCII, and the byte 10 never occurs
    inside a multi-byte UTF-8 sequence. *)
Inductive re : Type :=
| Void
| Eps
| Cls (p : ascii -> bool)
| Cat (r1 r2 : re)
| Alt (r1 r2 : re)
| Star (r : re).

Fixpoint nullable (r : re) : bool :=
  match r with
  | Void => false
  | Eps => true
  | Cls _ => false
  | Cat r1 r2 => nullable r1 && nullable r2
  | Alt r1 r2 => nullable r1 || nullable r2
  | Star _ => true
  end.

Fixpoint deriv (c : ascii) (r : re) : re :=
  match r with
  | Void => Void
  | Eps => Void
  | Cls p => if p c then Eps else Void
  | Cat r1 r2 =>
      if nullable r1
      then Alt (Cat (deriv c r1) r2) (deriv c r2)
      else Cat (deriv c r1) r2
  | Alt r1 r2 => Alt (deriv c r1) (deriv c r2)
  | Star r1 => Cat (deriv c r1) (Star r1)
  end.

(** Whole-input match. *)
Fixpoint re_accepts (r : re) (s : list ascii) : bool :=
  match s with
  | [] => nullable r
  | c :: s' => re_accepts (deriv c r) s'
  end.

(** Character classes. *)
Definition cls_any (c : ascii) : bool := true.
(** [.] without the s flag: any character but a newline. *)
Definition cls_dot (c : ascii) : bool := negb (Ascii.eqb c "010"%char).
(** [\d] = [0-9]. *)
Definition cls_digit (c : ascii) : bool :=
  (48 <=? nat_of_ascii c)%nat && (nat_of_ascii c <=? 57)%nat.
(** [\s] = [\t\n\f\r ] (RE2: no vertical tab). *)
Definition cls_space (c : ascii) : bool :=
  Ascii.eqb c "009"%char || Ascii.eqb c "010"%char || Ascii.eqb c "012"%char
  || Ascii.eqb c "013"%char || Ascii.eqb c " "%char.

(** A literal string. *)
Fixpoint Lit (s : string) : re :=
  match s with
  | EmptyString => Eps
  | String c s' => Cat (Cls (Ascii.eqb c)) (Lit s')
  end.

(** [r+] and [r{n}].  A lazy quantifier ([+?]) accepts the same inputs as
    the greedy one; it only changes which submatch is reported. *)
Definition Plus (r : re) : re := Cat r (Star r).
Fixpoint Rep (n : nat) (r : re) : re :=
  match n with
  | O => Eps
  | S n' => Cat r (Rep n' r)
  end.

(** A compiled pattern: its body and whether it is anchored with [^] at the
    start and with [$] at the end (no m flag: start and end of the text). *)
Record Regexp : Type := mkRegexp {
  anchored_start : bool;
  body : re;
  anchored_end : bool
}.

(** The methods [Match] and [MatchString] of a compiled pattern: does the
    text contain a match? *)
Definition regexp_Match (p : Regexp) (s : string) : bool :=
  re_accepts
    (Cat (if anchored_start p then Eps else Star (Cls cls_any))
         (Cat (body p) (if anchored_end p then Eps else Star (Cls cls_any))))
    (list_ascii_of_string s).

(** ** strconv.ParseInt(s, 10, 64) *)

(** The digit value of a byte in base 10, as the loop of [ParseUint] reads
    it: the decimal digits have a value; letters have a value that is not
    below the base, and every other byte has none (both are syntax errors). *)
Definition digit_val (c : ascii) : option Z :=
  if cls_digit c then Some (Z.of_nat (nat_of_ascii c) - 48) else None.

(** The loop of [strconv.ParseUint] for base 10 and bit size 64.  [n] is the
    accumulator (a [uint64]).  A range error returns at once, before the
    rest of the input is looked at. *)
Fixpoint parseUint_loop (s : list ascii) (n : Z) : Z * option numErr :=
  match s with
  | [] => (n, None)
  | c :: s' =>
      match digit_val c with
      | None => (0, Some ErrSyntax)
      | Some d =>
          let cutoff := uint64_max / 10 + 1 in
          if cutoff <=? n then (uint64_max, Some ErrRange)
          else
            let n10 := (n * 10) mod 2 ^ 64 in
            let n1 := (n10 + d) mod 2 ^ 64 in
            if (n1 <? n10) || (uint64_max <? n1) then (uint64_max, Some ErrRange)
            else parseUint_loop s' n1
      end
  end.

Definition strconv_ParseUint (s : list ascii) : Z * option numErr :=
  match s with
  | [] => (0, Some ErrSyntax)
  | _ => parseUint_loop s 0
  end.

(** [strconv.ParseInt(s, 10, 64)]: an optional sign, then [ParseUint], then
    the range check against [1 << 63]. *)
Definition strconv_ParseInt (s : string) : result Z :=
  match list_ascii_of_string s with
  | [] => Err (NumError "ParseInt" s ErrSyntax)
  | c :: rest =>
      let neg := Ascii.eqb c "-"%char in
      let digits := if Ascii.eqb c "+"%char || neg then rest else c :: rest in
      let '(un, e) := strconv_ParseUint digits in
      match e with
      | Some ErrSyntax => Err (NumError "ParseInt" s ErrSyntax)
      | _ =>
          let cutoff := 2 ^ 63 in
          if negb neg && (cutoff <=? un) then Err (NumError "ParseInt" s ErrRange)
          else if neg && (cutoff <? un) then Err (NumError "ParseInt" s ErrRange)
          else
            let n := wrap64 un in
            Ok (if neg then wrap64 (- n) else n)
      end
  end.

(** ** time and math/rand *)

Definition Time : Type := Z.

Definition time_Second : Z := 1000000000.

(** [time.Unix(sec, nsec)]. *)
Definition time_Unix (sec nsec : Z) : Time := sec * time_Second + nsec.
(** [(Time).Unix()]: whole seconds since the epoch. *)
Definition Time_Unix (t : Time) : Z := t / time_Second.
(** [(Time).Add(d)]. *)
Definition Time_Add (t : Time) (d : Z) : Time := t + d.
(** [(Time).After(u)]: strictly later. *)
Definition Time_After (t u : Time) : bool := u <? t.

(** [rand.Int63n(n)] for [n > 0]: the accepted 63-bit draw [v] of the
    source, reduced modulo [n]. *)
Definition rand_Int63n (n : Z) (v : Z) : Z := v mod n.

(** ** os.FileMode and os.FileInfo *)

(** A [FileMode] is a [uint32]: type bits at the top, permission bits in
    the low nine. *)
Definition FileMode : Type := Z.

Definition ModeDir : FileMode := Z.shiftl 1 31.
Definition ModeSymlink : FileMode := Z.shiftl 1 27.
Definition ModeDevice : FileMode := Z.shiftl 1 26.
Definition ModeNamedPipe : FileMode := Z.shiftl 1 25.
Definition ModeSocket : FileMode := Z.shiftl 1 24.
Definition ModeCharDevice : FileMode := Z.shiftl 1 21.
Definition ModeIrregular : FileMode := Z.shiftl 1 19.

Definition ModeType : FileMode :=
  Z.lor ModeDir (Z.lor ModeSymlink (Z.lor ModeNamedPipe
    (Z.lor ModeSocket (Z.lor ModeDevice (Z.lor ModeCharDevice ModeIrregular))))).
Definition ModePerm : FileMode := 511. (* 0777 *)

Definition FileMode_IsDir (m : FileMode) : bool := negb (Z.land m ModeDir =? 0).
Definition FileMode_IsRegular (m : FileMode) : bool := Z.land m ModeType =? 0.
Definition FileMode_Perm (m : FileMode) : FileMode := Z.land m ModePerm.

Record FileInfo : Type := mkFileInfo {
  Name : string;      (* base name *)
  Mode : FileMode;
  ModTime : Time
}.

Definition IsDir (fi : FileInfo) : bool := FileMode_IsDir (Mode fi).

(** What [os.Stat] or [os.Lstat] returns. *)
Inductive StatResult : Type :=
| StatOk (fi : FileInfo)
| StatFail (e : error).

(** ** filepath.Walk *)

(** The part of the file system a walk looks at.  A node is a name whose
    [Lstat] failed, or an entry with its [FileInfo]; for a directory, the
    entry also carries the outcome of reading the directory: an error, or
    the children in the order [readDirNames] returns them (sorted by name). *)
Inductive FsNode : Type :=
| LstatErr (name : string) (e : error)
| Entry (info : FileInfo) (readErr : option error) (children : list FsNode).

Definition nodeName (n : FsNode) : string :=
  match n with
  | LstatErr name _ => name
  | Entry info _ _ => Name info
  end.

(** The elements of a path: the texts between its separators. *)
Fixpoint path_elements (s : string) (cur : string) : list string :=
  match s with
  | EmptyString => [cur]
  | String c s' =>
      if Ascii.eqb c "/"%char then cur :: path_elements s' ""
      else path_elements s' (cur ++ String c "")
  end.

(** The loop of [filepath.Clean] over the elements: [out] holds the
    elements written so far, the last one first.  An empty element and a
    [.] element are dropped; a [..] element removes the element before it
    when there is one that is not itself [..], is dropped at the top of a
    rooted path and is kept otherwise; any other element is written. *)
Fixpoint clean_elements (rooted : bool) (elems : list string) (out : list string)
  : list string :=
  match elems with
  | [] => rev out
  | e :: rest =>
      if String.eqb e "" || String.eqb e "." then clean_elements rooted rest out
      else if String.eqb e ".." then
        match out with
        | top :: out' =>
            if String.eqb top ".."
            then clean_elements rooted rest (if rooted then out else ".." :: out)
            else clean_elements rooted rest out'
        | [] => clean_elements rooted rest (if rooted then out else ".." :: out)
        end
      else clean_elements rooted rest (e :: out)
  end.

(** [filepath.Clean] (Unix: the separator is [/], no volume name). *)
Definition filepath_Clean (path : string) : string :=
  if String.eqb path "" then "."
  else
    let rooted := match path with String c _ => Ascii.eqb c "/"%char | _ => false end in
    let body := String.concat "/" (clean_elements rooted (path_elements path "") []) in
    if rooted then "/" ++ body
    else if String.eqb body "" then "." else body.

(** [filepath.Join(dir, name)]: the elements from the first one that is
    not empty, joined with the separator and cleaned. *)
Definition filepath_Join (dir name : string) : string :=
  if String.eqb dir "" then (if String.eqb name "" then "" else filepath_Clean name)
  else filepath_Clean (dir ++ "/" ++ name).

(** What a call returns: an error value (or nil), unless it panicked. *)
Inductive Res : Type :=
| Panic
| Ret (err : option error).

(** A [filepath.WalkFunc] over a store [S] of the variables it writes.
    The [FileInfo] is [None] when the interface value is nil. *)
Definition WalkFunc (S : Type) : Type :=
  string -> option FileInfo -> option error -> S -> S * Res.

Section Walk.
Variable S : Type.
Variable fn : WalkFunc S.

(** Does the loop over the children return the error [err] that the
    child [c] produced?  ([err != SkipDir] for a failed [Lstat];
    [!fileInfo.IsDir() || err != SkipDir] after the recursive call.) *)
Definition child_error_returns (c : FsNode) (err : error) : bool :=
  match c with
  | LstatErr _ _ => negb (error_is_sentinel err SkipDir)
  | Entry info _ _ => negb (IsDir info) || negb (error_is_sentinel err SkipDir)
  end.

(** [visit path n]: what happens for the node [n] found at [path].  For a
    failed [Lstat] the function is called with a nil [FileInfo]; otherwise
    this is [filepath.walk]. *)
Fixpoint visit (path : string) (n : FsNode) (s : S) {struct n} : S * Res :=
  match n with
  | LstatErr _ e => fn path None (Some e) s
  | Entry info readErr children =>
      if negb (IsDir info) then fn path (Some info) None s
      else
        let '(s1, r1) := fn path (Some info) readErr s in
        match r1 with
        | Panic => (s1, Panic)
        | Ret err1 =>
            if isSome readErr || isSome err1 then (s1, Ret err1)
            else
              (fix loop (l : list FsNode) (s : S) {struct l} : S * Res :=
                 match l with
                 | [] => (s, Ret None)
                 | c :: rest =>
                     let '(s2, r) := visit (filepath_Join path (nodeName c)) c s in
                     match r with
                     | Panic => (s2, Panic)
                     | Ret None => loop rest s2
                     | Ret (Some err) =>
                         if child_error_returns c err then (s2, Ret (Some err))
                         else loop rest s2
                     end
                 end) children s1
        end
  end.

(** [filepath.Walk(root, fn)]. *)
Definition filepath_Walk (root : string) (n : FsNode) (s : S) : S * Res :=
  let '(s1, r) := visit root n s in
  match r with
  | Ret (Some err) =>
      if error_is_sentinel err SkipDir || error_is_sentinel err SkipAll
      then (s1, Ret None) else (s1, r)
  | _ => (s1, r)
  end.
End Walk.

(* ================================================================= *)
(** * Part II. parser.go                                              *)
(* ================================================================= *)

(** ** Constants and patterns (lines 48-76) *)

Definition oneMillisecond : Z := 1000000.
Definition simulationLogFileName : string := "simulation.log".

(** [^.+?-(\d{14})\d{3}$] *)
Definition resultDirNamePattern : Regexp :=
  mkRegexp true
    (Cat (Plus (Cls cls_dot))
         (Cat (Lit "-") (Cat (Rep 14 (Cls cls_digit)) (Rep 3 (Cls cls_digit)))))
    true.

(** [^USER\s] *)
Definition userLine : Regexp := mkRegexp true (Cat (Lit "USER") (Cls cls_space)) false.
(** [^REQUEST\s] *)
Definition requestLine : Regexp := mkRegexp true (Cat (Lit "REQUEST") (Cls cls_space)) false.
(** [GROUP\s]: the one pattern of the five without [^]. *)
Definition groupLine : Regexp := mkRegexp false (Cat (Lit "GROUP") (Cls cls_space)) false.
(** [^RUN\s] *)
Definition runLine : Regexp := mkRegexp true (Cat (Lit "RUN") (Cls cls_space)) false.
(** [^ERROR\s] *)
Definition errorLine : Regexp := mkRegexp true (Cat (Lit "ERROR") (Cls cls_space)) false.

(** A polling loop is run against the finite list of observations the
    environment supplies, one per iteration.  It has either returned, or it
    is still in the loop once the observations are used up. *)
Inductive Run (A : Type) : Type :=
| Finished (a : A)
| Pending.
Arguments Finished {A} a.
Arguments Pending {A}.

(** ** lookupTargetDir (lines 82-114) *)

(** Each observation: is [ctx.Done()] ready, and what [os.Stat(dir)] says.
    The [Stat] is not made when the context is done. *)
Fixpoint lookupTargetDir (dir : string) (polls : list (bool * StatResult))
  : Run (option error) :=
  match polls with
  | [] => Pending
  | (done, st) :: rest =>
      if done then Finished (Some (Sentinel errStoppedByUser))
      else
        match st with
        | StatFail err =>
            if negb (os_IsNotExist (Some err))
            then Finished (Some (ErrorfW ("Target path " ++ dir ++ " exists but there is an error: ") err))
            else (* time.Sleep(loopTimeout); continue *)
              lookupTargetDir dir rest
        | StatOk fInfo =>
            if negb (IsDir fInfo)
            then Finished (Some (Errorf ("Was expecting directory at " ++ dir ++ ", but found a file")))
            else Finished None
        end
  end.

(** ** walkFunc (lines 116-131) *)

(** The store is the package variable [logDir]; [startTime] is read only.
    [info.IsDir()] is the first thing evaluated: with a nil [info] the call
    panics.  The [err] argument is never looked at. *)
Definition walkFunc (startTime : Z) : WalkFunc string :=
  fun path info err logDir =>
    match info with
    | None => (logDir, Panic)
    | Some info =>
        if IsDir info && regexp_Match resultDirNamePattern (Name info) then
          let startTimeMinusSlack := wrap64 (startTime - 60) in
          if startTimeMinusSlack <? Time_Unix (ModTime info)
          then (path, Ret (Some (Sentinel errFound)))
          else (logDir, Ret None)
        else (logDir, Ret None)
    end.

(** ** lookupResultsDir (lines 139-164) *)

(** Each observation: is [ctx.Done()] ready, and the tree under [dir] as
    the walk of this iteration finds it. *)
Fixpoint lookupResultsDir (startTime : Z) (dir : string)
    (polls : list (bool * FsNode)) (logDir : string) : Run (string * Res) :=
  match polls with
  | [] => Pending
  | (done, tree) :: rest =>
      if done then Finished (logDir, Ret (Some (Sentinel errStoppedByUser)))
      else
        let '(logDir1, r) := filepath_Walk (walkFunc startTime) dir tree logDir in
        match r with
        | Panic => Finished (logDir1, Panic)
        | Ret (Some err) =>
            if error_is_sentinel err errFound then Finished (logDir1, Ret None)
            else Finished (logDir1, Ret (Some err))
        | Ret None => (* time.Sleep(loopTimeout) *)
            lookupResultsDir startTime dir rest logDir1
        end
  end.

(** ** waitForLog (lines 166-199) *)

(** [goos] is [runtime.GOOS].  Each observation: is [ctx.Done()] ready, and
    what [os.Stat(logDir + "/" + simulationLogFileName)] says. *)
Fixpoint waitForLog (goos : string) (polls : list (bool * StatResult))
  : Run (option error) :=
  match polls with
  | [] => Pending
  | (done, st) :: rest =>
      if done then Finished (Some (Sentinel errStoppedByUser))
      else
        match st with
        | StatFail err =>
            if negb (os_IsNotExist (Some err)) then Finished (Some err)
            else (* time.Sleep(loopTimeout); continue *)
              waitForLog goos rest
        | StatOk fInfo =>
            if FileMode_IsRegular (Mode fInfo)
               && (String.eqb goos "windows" || (420 <=? FileMode_Perm (Mode fInfo)))
            then Finished None
            else Finished (Some (ErrorsNew
                   ("Something wrong happened when attempting to open " ++ simulationLogFileName)))
        end
  end.

(** ** timeFromUnixBytes (lines 201-209) *)

(** [v] is the draw of the random source that [rand.Int63n] reduces.  The
    product and the sum are [int64] operations. *)
Definition timeFromUnixBytes (ub : string) (v : Z) : result Time :=
  match strconv_ParseInt ub with
  | Err err => Err (ErrorfW "Failed to parse timestamp as integer: " err)
  | Ok timeStamp =>
      Ok (time_Unix 0
            (wrap64 (wrap64 (timeStamp * oneMillisecond)
                     + rand_Int63n oneMillisecond v)))
  end.

(** ** stringProcessor (lines 211-232) *)

(** The five line parsers are defined in another file of the package; the
    calls show their type, [func([]byte) error].  They read and write
    package state (the format flag, the metrics sink), which is the store
    [PS] here. *)
Record LineParsers (PS : Type) : Type := mkLineParsers {
  requestLineParser : string -> PS -> PS * option error;
  groupLineParser : string -> PS -> PS * option error;
  userLineParser : string -> PS -> PS * option error;
  errorLineParser : string -> PS -> PS * option error;
  runLineParser : string -> PS -> PS * option error
}.

(** Which case of the switch a line takes. *)
Inductive LineKind : Type := KRequest | KGroup | KUser | KError | KRun | KUnknown.

Definition lineKind (lineBuffer : string) : LineKind :=
  if regexp_Match requestLine lineBuffer then KRequest
  else if regexp_Match groupLine lineBuffer then KGroup
  else if regexp_Match userLine lineBuffer then KUser
  else if regexp_Match errorLine lineBuffer then KError
  else if regexp_Match runLine lineBuffer then KRun
  else KUnknown.

Definition stringProcessor {PS : Type} (P : LineParsers PS)
    (lineBuffer : string) (gatlingVersion : string) (ps : PS) : PS * option error :=
  match lineKind lineBuffer with
  | KRequest => requestLineParser P lineBuffer ps
  | KGroup => groupLineParser P lineBuffer ps
  | KUser => userLineParser P lineBuffer ps
  | KError => errorLineParser P lineBuffer ps
  | KRun =>
      let '(ps1, err) := runLineParser P lineBuffer ps in
      match err with
      | Some e =>
          (* Wrapping in a fatal error because further processing is futile *)
          (ps1, Some (ErrorfW (Error_text e ++ ": ") (Sentinel errFatal)))
      | None => (ps1, None)
      end
  | KUnknown => (ps, Some (Errorf "Unknown line type encountered"))
  end.

(** ** fileProcessor (lines 234-281) *)

(** What [r.ReadBytes('\n')] returned besides the bytes. *)
Inductive ReadErr : Type :=
| RdNil
| RdEOF
| RdOther (e : error).

(** What the environment supplies to one iteration of [ParseLoop]: whether
    [ctx.Done()] is ready, the outcome of the read, and the reading of the
    clock ([time.Now()] is called at most once in an iteration, in the
    end-of-file branch or when the timer is reset). *)
Record Poll : Type := mkPoll {
  pl_done : bool;
  pl_bytes : string;
  pl_err : ReadErr;
  pl_now : Time
}.

(** What the loop does that can be seen from outside. *)
Inductive Event : Type :=
| LogClosingSignal                (* "Parser received closing signal..." *)
| LogIdleStop (waitTime : Z)      (* "No new lines found for %d seconds..." *)
| LogReadError (e : error)        (* "Unexpected error encountered..." *)
| LogStringProcessingFailed (e : error)
| LogCannotHandle                 (* "Log parser caught an error that can't be handled..." *)
| Sleep (d : Z)
| SendParserStopped.              (* parserStopped <- struct{}{} *)

Definition is_SendParserStopped (e : Event) : bool :=
  match e with SendParserStopped => true | _ => false end.

(** The local variables of [fileProcessor] that live across iterations,
    and the store of the line parsers. *)
Record TailState (PS : Type) : Type := mkTailState {
  buf : string;
  startWait : Time;
  pstate : PS
}.

Inductive Ctl : Type := Continue | BreakParseLoop.

(** [time.Duration(waitTime) * time.Second]: [waitTime] is a [uint] (taken
    as 64 bits wide), converted to the [int64] type [Duration] and
    multiplied there. *)
Definition idleDuration (waitTime : Z) : Z := wrap64 (wrap64 waitTime * time_Second).

Section FileProcessor.
Variable PS : Type.
Variable P : LineParsers PS.
Variable waitTime : Z.
Variable gatlingVersion : string.

(** One iteration of [ParseLoop]. *)
Definition parseLoopBody (st : TailState PS) (p : Poll)
  : TailState PS * list Event * Ctl :=
  if pl_done p then (st, [LogClosingSignal], BreakParseLoop)
  else
    match pl_err p with
    | RdEOF =>
        if Time_After (pl_now p) (Time_Add (startWait st) (idleDuration waitTime))
        then (st, [LogIdleStop waitTime], BreakParseLoop)
        else
          (* All new data is stored in buffer until next loop *)
          (mkTailState (buf st ++ pl_bytes p) (startWait st) (pstate st),
           [Sleep time_Second], Continue)
    | rerr =>
        let log1 := match rerr with RdOther e => [LogReadError e] | _ => [] end in
        let line := buf st ++ pl_bytes p in
        let '(ps1, err) := stringProcessor P line gatlingVersion (pstate st) in
        match err with
        | Some e =>
            if errors_Is e errFatal
            then (mkTailState line (startWait st) ps1,
                  (log1 ++ [LogStringProcessingFailed e; LogCannotHandle])%list,
                  BreakParseLoop)
            else (mkTailState "" (pl_now p) ps1,
                  (log1 ++ [LogStringProcessingFailed e])%list, Continue)
        | None => (mkTailState "" (pl_now p) ps1, log1, Continue)
        end
    end.

(** [ParseLoop]: the final state, the events, and whether the loop was
    left ([false]: it is still running when the observations end). *)
Fixpoint parseLoop (st : TailState PS) (polls : list Poll)
  : TailState PS * list Event * bool :=
  match polls with
  | [] => (st, [], false)
  | p :: rest =>
      let '(st1, evs, ctl) := parseLoopBody st p in
      match ctl with
      | BreakParseLoop => (st1, evs, true)
      | Continue =>
          let '(st2, evs2, exited) := parseLoop st1 rest in
          (st2, (evs ++ evs2)%list, exited)
      end
  end.

(** [fileProcessor]: [now0] is the clock when it starts, [ps0] the store
    of the parsers.  The send on [parserStopped] follows the loop. *)
Definition fileProcessor (now0 : Time) (ps0 : PS) (polls : list Poll)
  : TailState PS * list Event * bool :=
  let '(st, evs, exited) := parseLoop (mkTailState "" now0 ps0) polls in
  (st, (evs ++ (if exited then [SendParserStopped] else []))%list, exited).
End FileProcessor.

(** ** RunMain, before the pipeline starts (lines 310-332) *)

(** How the process stands when the three lookups are over. *)
Inductive Outcome : Type :=
| PlainReturn                      (* [return] from RunMain *)
| OsExit (code : Z)                (* os.Exit(code) *)
| Crash                            (* an unrecovered panic *)
| StillLooking                     (* a lookup loop is still polling *)
| StartPipeline (logDir : string). (* the goroutines are started *)

(** [if err == errStoppedByUser { return }; ...; os.Exit(1)] *)
Definition onLookupError (err : error) : Outcome :=
  if error_is_sentinel err errStoppedByUser then PlainReturn else OsExit 1.

Record LookupEnv : Type := mkLookupEnv {
  targetPolls : list (bool * StatResult);
  resultsPolls : list (bool * FsNode);
  logPolls : list (bool * StatResult)
}.

Definition RunMain_lookups (startTime : Z) (goos : string) (abs : string)
    (env : LookupEnv) (logDir : string) : Outcome :=
  match lookupTargetDir abs (targetPolls env) with
  | Pending => StillLooking
  | Finished (Some err) => onLookupError err
  | Finished None =>
      match lookupResultsDir startTime abs (resultsPolls env) logDir with
      | Pending => StillLooking
      | Finished (_, Panic) => Crash
      | Finished (_, Ret (Some err)) => onLookupError err
      | Finished (logDir1, Ret None) =>
          match waitForLog goos (logPolls env) with
          | Pending => StillLooking
          | Finished (Some err) => onLookupError err
          | Finished None => StartPipeline logDir1
          end
      end
  end.

(** ** RunMain, the pipeline and its shutdown (lines 334-356) *)

(** Three units run concurrently: the goroutine of [parseStart] (the
    tailer), the goroutine of [influx.StartProcessing] (the sink) and
    [RunMain] itself in [FinisherLoop].  Their interleavings are the runs
    of a labelled transition system: the state holds the program point of
    each unit and the three contexts, and each action is one atomic step
    of one unit.  [parserStopped] is an unbuffered channel, so the send in
    [fileProcessor] and the receive in [FinisherLoop] are one joint step. *)

Inductive TailerPc : Type :=
| TInLoop       (* in ParseLoop *)
| TSending      (* loop left; blocked in [parserStopped <- struct{}{}] *)
| TStopped.     (* the send went through; parseStart returns *)

Inductive MainPc : Type :=
| MSelect       (* at the select of FinisherLoop *)
| MReceived     (* in [case <-parserStopped], before iCancel() *)
| MSinkTold     (* after iCancel(), before pCancel() *)
| MWait         (* after [break FinisherLoop], in wg.Wait() *)
| MReturned.

Record Sys : Type := mkSys {
  topDone : bool;     (* cmd.Context() is done: external stop requested *)
  pCtxDone : bool;    (* pCancel() was called *)
  iCtxDone : bool;    (* iCancel() was called *)
  tailer : TailerPc;
  mainPc : MainPc;
  sinkExited : bool
}.

Inductive Action : Type :=
| ExternalStop        (* the top-level context is cancelled *)
| TailerLeavesLoop    (* ParseLoop is left: idle timeout, fatal error or pCtx done *)
| SelectTopDone       (* case <-cmd.Context().Done(): pCancel() *)
| RecvParserStopped   (* case <-parserStopped, together with the tailer's send *)
| CallICancel         (* iCancel() *)
| CallPCancel         (* pCancel(); break FinisherLoop *)
| SinkExits           (* influx.StartProcessing returns *)
| WaitReturns.        (* wg.Wait() returns *)

Definition Action_eqb (a b : Action) : bool :=
  match a, b with
  | ExternalStop, ExternalStop
  | TailerLeavesLoop, TailerLeavesLoop
  | SelectTopDone, SelectTopDone
  | RecvParserStopped, RecvParserStopped
  | CallICancel, CallICancel
  | CallPCancel, CallPCancel
  | SinkExits, SinkExits
  | WaitReturns, WaitReturns => true
  | _, _ => false
  end.

Definition sys0 : Sys := mkSys false false false TInLoop MSelect false.

(** [step s a]: the state after [a], when [a] is enabled in [s]. *)
Definition step (s : Sys) (a : Action) : option Sys :=
  match a with
  | ExternalStop =>
      Some (mkSys true (pCtxDone s) (iCtxDone s) (tailer s) (mainPc s) (sinkExited s))
  | TailerLeavesLoop =>
      match tailer s with
      | TInLoop => Some (mkSys (topDone s) (pCtxDone s) (iCtxDone s) TSending (mainPc s) (sinkExited s))
      | _ => None
      end
  | SelectTopDone =>
      match mainPc s, topDone s with
      | MSelect, true => Some (mkSys (topDone s) true (iCtxDone s) (tailer s) MSelect (sinkExited s))
      | _, _ => None
      end
  | RecvParserStopped =>
      match mainPc s, tailer s with
      | MSelect, TSending => Some (mkSys (topDone s) (pCtxDone s) (iCtxDone s) TStopped MReceived (sinkExited s))
      | _, _ => None
      end
  | CallICancel =>
      match mainPc s with
      | MReceived => Some (mkSys (topDone s) (pCtxDone s) true (tailer s) MSinkTold (sinkExited s))
      | _ => None
      end
  | CallPCancel =>
      match mainPc s with
      | MSinkTold => Some (mkSys (topDone s) true (iCtxDone s) (tailer s) MWait (sinkExited s))
      | _ => None
      end
  | SinkExits =>
      if sinkExited s then None
      else Some (mkSys (topDone s) (pCtxDone s) (iCtxDone s) (tailer s) (mainPc s) true)
  | WaitReturns =>
      match mainPc s, tailer s, sinkExited s with
      | MWait, TStopped, true => Some (mkSys (topDone s) (pCtxDone s) (iCtxDone s) (tailer s) MReturned true)
      | _, _, _ => None
      end
  end.

(** A run: a sequence of actions, each enabled where it is taken. *)
Fixpoint run (s : Sys) (tr : list Action) : option Sys :=
  match tr with
  | [] => Some s
  | a :: tr' =>
      match step s a with
      | Some s' => run s' tr'
      | None => None
      end
  end.

(* ================================================================= *)
(** * Part III. The specification's wording, sample inputs, invariants *)
(* ================================================================= *)

(** The name of a results directory as the specification describes it:
    a prefix, a dash, a 14-digit timestamp and three more digits.  The
    prefix is not empty and has no newline in it. *)
Definition resultDirName (name : string) : Prop :=
  exists (pre ts extra : list ascii),
    list_ascii_of_string name = (pre ++ "-"%char :: ts ++ extra)%list
    /\ pre <> []
    /\ forallb cls_dot pre = true
    /\ List.length ts = 14%nat /\ forallb cls_digit ts = true
    /\ List.length extra = 3%nat /\ forallb cls_digit extra = true.

(** The specification's test on a directory met by the walk: its
    last-modified time is at or after the start time minus 60 seconds. *)
Definition spec_recent_enough (startTime : Z) (info : FileInfo) : bool :=
  (startTime - 60) * time_Second <=? ModTime info.

(** The specification's test on the log file: readable by group and by
    others (bits 0040 and 0004 of the permissions). *)
Definition spec_group_other_readable (m : FileMode) : bool :=
  Z.testbit m 5 && Z.testbit m 2.

(** The specification's idle test: the time since the last complete line
    is at or after the threshold of [waitTime] seconds. *)
Definition spec_idle_reached (waitTime : Z) (startWait now : Time) : bool :=
  waitTime * time_Second <=? now - startWait.

(** What the walk calls the function on, in order: every node with its
    path, a directory before its children, the children of a directory
    that could not be read left out. *)
Fixpoint preorder (path : string) (n : FsNode) {struct n}
  : list (string * option FileInfo) :=
  match n with
  | LstatErr _ _ => [(path, None)]
  | Entry info readErr children =>
      (path, Some info) ::
      (if IsDir info && negb (isSome readErr)
       then flat_map (fun c => preorder (filepath_Join path (nodeName c)) c) children
       else [])
  end.

(** The test of [walkFunc] on one [FileInfo]. *)
Definition walkFunc_selects (startTime : Z) (info : FileInfo) : bool :=
  IsDir info
  && regexp_Match resultDirNamePattern (Name info)
  && (startTime - 60 <? Time_Unix (ModTime info)).

(** Where a walk with [walkFunc] ends: at the first selected directory or
    at the first nil [FileInfo], whichever comes first. *)
Definition walk_stops_at (startTime : Z) (x : string * option FileInfo) : bool :=
  match snd x with
  | None => true
  | Some info => walkFunc_selects startTime info
  end.

(** The result of a walk with [walkFunc] over the calls [l] it would make
    in order: it ends at the first call that stops it. *)
Definition walk_result (startTime : Z) (l : list (string * option FileInfo))
    (logDir : string) : string * Res :=
  match find (walk_stops_at startTime) l with
  | Some (path, Some _) => (path, Ret (Some (Sentinel errFound)))
  | Some (_, None) => (logDir, Panic)
  | None => (logDir, Ret None)
  end.

(** The loop of [visit] over the children of a directory, under a name. *)
Definition visit_children (S : Type) (fn : WalkFunc S) (path : string)
  : list FsNode -> S -> S * Res :=
  fix loop (l : list FsNode) (s : S) {struct l} : S * Res :=
    match l with
    | [] => (s, Ret None)
    | c :: rest =>
        let '(s2, r) := visit fn (filepath_Join path (nodeName c)) c s in
        match r with
        | Panic => (s2, Panic)
        | Ret None => loop rest s2
        | Ret (Some err) =>
            if child_error_returns c err then (s2, Ret (Some err))
            else loop rest s2
        end
    end.

(** ** Sample inputs *)

Definition tab : string := String "009"%char "".

(** Mode bits of a directory [drwxr-xr-x] and of files [-rw-r--r--],
    [-rwx------] and [-r--r--r--]. *)
Definition mode_dir_755 : FileMode := Z.lor ModeDir 493.
Definition mode_file_644 : FileMode := 420.
Definition mode_file_700 : FileMode := 448.
Definition mode_file_444 : FileMode := 292.

Definition sample_startTime : Z := 1700000000.

(** A results directory last modified exactly 60 seconds before the start. *)
Definition sample_dir_on_bound : FileInfo :=
  mkFileInfo "basicsimulation-20231114221220123" mode_dir_755
    ((sample_startTime - 60) * time_Second).
(** One modified 90 seconds before the start, one 5 seconds after it. *)
Definition sample_dir_old : FileInfo :=
  mkFileInfo "basicsimulation-20231114221150123" mode_dir_755
    ((sample_startTime - 90) * time_Second).
Definition sample_dir_new : FileInfo :=
  mkFileInfo "basicsimulation-20231114221325123" mode_dir_755
    ((sample_startTime + 5) * time_Second).
Definition sample_root : FileInfo :=
  mkFileInfo "results" mode_dir_755 ((sample_startTime - 1000) * time_Second).
Definition sample_log : FileInfo :=
  mkFileInfo "simulation.log" mode_file_644 ((sample_startTime + 6) * time_Second).

(** A tree with an old and a new results directory; an entry whose
    [Lstat] fails comes after the new one. *)
Definition sample_tree : FsNode :=
  Entry sample_root None
    [ Entry sample_dir_old None [];
      Entry sample_dir_new None [ Entry sample_log None [] ];
      LstatErr "zz.tmp" (PathError "lstat" "/results/zz.tmp" ENOENT) ].

Definition sample_tree_on_bound : FsNode :=
  Entry sample_root None [ Entry sample_dir_on_bound None [] ].

(** Line parsers to run the loop on: each accepts a line with enough
    tab-separated fields and counts it as sent to the sink, and fails on a
    shorter one.  The store is the number of points sent. *)
Fixpoint count_tabs (s : string) : nat :=
  match s with
  | EmptyString => O
  | String c s' => ((if Ascii.eqb c "009"%char then 1 else 0) + count_tabs s')%nat
  end.

Definition sample_parser (label : string) (fields : nat)
  : string -> nat -> nat * option error :=
  fun line sent =>
    if (fields <=? count_tabs line)%nat then (S sent, None)
    else (sent, Some (Errorf (label ++ " line contains unexpected amount of values"))).

Definition sample_parsers : LineParsers nat :=
  mkLineParsers
    (sample_parser "REQUEST" 6)
    (sample_parser "GROUP" 5)
    (sample_parser "USER" 4)
    (sample_parser "ERROR" 2)
    (sample_parser "RUN" 5).

(** What the loop logs for the read itself, before the line is processed. *)
Definition readLog (p : Poll) : list Event :=
  match pl_err p with RdOther e => [LogReadError e] | _ => [] end.

(** How many completion notifications a sequence of events holds. *)
Definition notifications (evs : list Event) : nat :=
  List.length (filter is_SendParserStopped evs).

(** The largest idle threshold, in seconds, whose [Duration] is in range. *)
Definition max_waitTime : Z := 9223372036.

(** Sample lines. *)
Definition sample_line_request_short : string :=
  "REQUEST" ++ tab ++ "1" ++ tab ++ "home" ++ String "010"%char "".
Definition sample_line_run_short : string :=
  "RUN" ++ tab ++ "scenario1" ++ String "010"%char "".
Definition sample_line_user_group : string :=
  "USER" ++ tab ++ "GROUP 1" ++ tab ++ "1" ++ tab ++ "START" ++ tab
  ++ "1700000000000" ++ tab ++ "1700000000000" ++ String "010"%char "".
Definition sample_line_unknown : string := "ASSERTION" ++ tab ++ "x" ++ String "010"%char "".
(** A run header, cut short, that holds "GROUP" and a space. *)
Definition sample_line_run_group : string :=
  "RUN" ++ tab ++ "GROUP x" ++ String "010"%char "".

(** An end-of-file poll (the context not done), and the bytes that a
    sequence of polls read, in order. *)
Definition eof_poll (p : Poll) : bool :=
  negb (pl_done p) && match pl_err p with RdEOF => true | _ => false end.

Definition fragments (polls : list Poll) : string :=
  fold_right (fun p acc => pl_bytes p ++ acc) "" polls.

(** A decimal integer as the specification means it: an optional sign and
    one or more decimal digits; its value. *)
Definition decimal_digits_value (digits : list ascii) (acc : Z) : Z :=
  fold_left (fun a c => a * 10 + (Z.of_nat (nat_of_ascii c) - 48)) digits acc.

Definition decimal_of_string (s : string) : option Z :=
  match list_ascii_of_string s with
  | [] => None
  | c :: rest =>
      let neg := Ascii.eqb c "-"%char in
      let digits := if Ascii.eqb c "+"%char || neg then rest else c :: rest in
      match digits with
      | [] => None
      | _ =>
          if forallb cls_digit digits
          then Some (if neg then - decimal_digits_value digits 0
                     else decimal_digits_value digits 0)
          else None
      end
  end.

(** The millisecond timestamps whose conversion to nanoseconds, with any
    jitter added, stays in the [int64] range. *)
Definition min_safe_ms : Z := -9223372036854.
Definition max_safe_ms : Z := 9223372036853.

(** A poll of a lookup loop at which the context is not done and the path
    does not exist: the loop sleeps and polls again. *)
Definition not_exist_poll (x : bool * StatResult) : bool :=
  negb (fst x)
  && match snd x with
     | StatFail e => os_IsNotExist (Some e)
     | StatOk _ => false
     end.

Definition sample_enoent_poll : bool * StatResult :=
  (false,
   StatFail (PathError "stat"
               "/results/basicsimulation-20231114221325123/simulation.log" ENOENT)).

Definition sample_env (stopAt : nat) : LookupEnv :=
  mkLookupEnv
    [(false, StatFail (PathError "stat" "/results" ENOENT));
     (Nat.eqb stopAt 1, StatOk sample_root)]
    [(false, sample_tree_on_bound); (Nat.eqb stopAt 2, sample_tree)]
    [sample_enoent_poll; (Nat.eqb stopAt 3, StatOk sample_log)].

(** The tailer left its loop and the main goroutine then received its
    notification, in this order, somewhere in the trace. *)
Definition notified_in (tr : list Action) : Prop :=
  exists pre1 pre2,
    tr = (pre1 ++ RecvParserStopped :: pre2)%list /\ In TailerLeavesLoop pre1.

(** What holds after every run from the initial state. *)
Record shutdown_inv (tr : list Action) (s : Sys) : Prop := mkShutdownInv {
  inv_left : tailer s <> TInLoop -> In TailerLeavesLoop tr;
  inv_stopped : tailer s = TStopped -> notified_in tr;
  inv_main : mainPc s <> MSelect -> tailer s = TStopped;
  inv_sink : iCtxDone s = true -> mainPc s <> MSelect /\ mainPc s <> MReceived;
  inv_once : In CallICancel tr -> iCtxDone s = true
}.

(** ** Definitions for the further properties *)

(** A poll of [lookupResultsDir] at which the context is not done and the
    walk of the tree under [dir] meets nothing that stops it. *)
Definition quiet_poll (startTime : Z) (dir : string) (x : bool * FsNode) : bool :=
  negb (fst x)
  && forallb (fun y => negb (walk_stops_at startTime y)) (preorder dir (snd x)).

(** The lines of a log handed to [stringProcessor] one after the other, up
    to the first fatal error: the store of the parsers afterwards, and
    whether a fatal error was met. *)
Fixpoint process_lines (PS : Type) (P : LineParsers PS) (gatlingVersion : string)
    (lines : list string) (ps : PS) : PS * bool :=
  match lines with
  | [] => (ps, false)
  | line :: rest =>
      let '(ps1, err) := stringProcessor P line gatlingVersion ps in
      match err with
      | Some e =>
          if errors_Is e errFatal then (ps1, true)
          else process_lines P gatlingVersion rest ps1
      | None => process_lines P gatlingVersion rest ps1
      end
  end.

(** A poll that reads a whole line (the context not done, no read error). *)
Definition line_poll (p : Poll) : bool :=
  negb (pl_done p) && match pl_err p with RdNil => true | _ => false end.

(** A poll whose read fails with an error other than end of file and
    returns no bytes (the context not done). *)
Definition failed_read_poll (p : Poll) : bool :=
  negb (pl_done p)
  && match pl_err p with RdOther _ => true | _ => false end
  && String.eqb (pl_bytes p) "".

(** What holds of the state after every run of the pipeline. *)
Record pipeline_inv (s : Sys) : Prop := mkPipelineInv {
  pinv_pcancel : pCtxDone s = true -> topDone s = true \/ tailer s = TStopped;
  pinv_main : mainPc s <> MSelect -> tailer s = TStopped;
  pinv_sink : mainPc s = MSinkTold \/ mainPc s = MWait \/ mainPc s = MReturned ->
              iCtxDone s = true;
  pinv_wait : mainPc s = MWait \/ mainPc s = MReturned -> pCtxDone s = true;
  pinv_returned : mainPc s = MReturned -> sinkExited s = true;
  pinv_stopped : tailer s = TStopped -> mainPc s <> MSelect
}.

(** The language of a regular expression, to state what the matcher of
    Part I decides. *)
Inductive re_lang : re -> list ascii -> Prop :=
| L_eps : re_lang Eps []
| L_cls p c : p c = true -> re_lang (Cls p) [c]
| L_cat r1 r2 s1 s2 :
    re_lang r1 s1 -> re_lang r2 s2 -> re_lang (Cat r1 r2) (s1 ++ s2)
| L_alt_l r1 r2 s : re_lang r1 s -> re_lang (Alt r1 r2) s
| L_alt_r r1 r2 s : re_lang r2 s -> re_lang (Alt r1 r2) s
| L_star_nil r : re_lang (Star r) []
| L_star_app r s1 s2 :
    re_lang r s1 -> re_lang (Star r) s2 -> re_lang (Star r) (s1 ++ s2).

(* ================================================================= *)
(** * Part IV. Properties                                             *)
(* ================================================================= *)

(** ** The matcher decides the language *)

Create HintDb re.
#[local] Hint Constructors re_lang : re.

Lemma nullable_spec (r : re) : nullable r = true <-> re_lang r [].
Proof.
  induction r; simpl; split; intro H; auto with re; try discriminate.
  - inversion H.
  - inversion H.
  - apply andb_true_iff in H as [H1 H2].
    change (@nil ascii) with (@nil ascii ++ [])%list.
    constructor; [apply IHr1 | apply IHr2]; assumption.
  - inversion H; subst.
    match goal with E : (_ ++ _)%list = [] |- _ => apply app_eq_nil in E as [-> ->] end.
    apply andb_true_iff; split; [apply IHr1 | apply IHr2]; assumption.
  - apply orb_true_iff in H as [H | H]; [apply L_alt_l, IHr1 | apply L_alt_r, IHr2]; assumption.
  - apply orb_true_iff. inversion H; subst; [left; apply IHr1 | right; apply IHr2]; assumption.
Qed.

Lemma star_cons_inv (r : re) (c : ascii) (s : list ascii) :
  re_lang (Star r) (c :: s) ->
  exists s1 s2, s = (s1 ++ s2)%list /\ re_lang r (c :: s1) /\ re_lang (Star r) s2.
Proof.
  intro H. remember (Star r) as r' eqn:Er. remember (c :: s) as w eqn:Ew.
  revert s Ew. induction H; intros s0 Ew; try discriminate.
  injection Er as ->.
  destruct s1 as [|a s1].
  - simpl in Ew. apply IHre_lang2; auto.
  - simpl in Ew. injection Ew as -> <-. exists s1, s2. auto.
Qed.

Lemma deriv_spec (c : ascii) (r : re) (s : list ascii) :
  re_lang (deriv c r) s <-> re_lang r (c :: s).
Proof.
  revert s. induction r; intro s; simpl.
  - split; intro H; inversion H.
  - split; intro H; inversion H.
  - destruct (p c) eqn:Ep; split; intro H.
    + inversion H; subst. constructor; assumption.
    + inversion H; subst. constructor.
    + inversion H.
    + inversion H; subst. congruence.
  - destruct (nullable r1) eqn:En; split; intro H.
    + inversion H; subst.
      * match goal with H1 : re_lang (Cat _ _) _ |- _ => inversion H1; subst end.
        change (c :: (s1 ++ s2)%list) with ((c :: s1) ++ s2)%list.
        constructor; [apply IHr1|]; assumption.
      * change (c :: s) with ([] ++ c :: s)%list.
        constructor; [apply nullable_spec | apply IHr2]; assumption.
    + inversion H; subst. destruct s1 as [|a s1]; simpl in *.
      * subst. apply L_alt_r, IHr2. assumption.
      * match goal with E : _ :: _ = _ :: _ |- _ => injection E as -> <- end.
        apply L_alt_l. constructor; [apply IHr1|]; assumption.
    + inversion H; subst.
      change (c :: (s1 ++ s2)%list) with ((c :: s1) ++ s2)%list.
      constructor; [apply IHr1|]; assumption.
    + inversion H; subst. destruct s1 as [|a s1]; simpl in *.
      * match goal with H1 : re_lang r1 [] |- _ => apply nullable_spec in H1 end.
        congruence.
      * match goal with E : _ :: _ = _ :: _ |- _ => injection E as -> <- end.
        constructor; [apply IHr1|]; assumption.
  - split; intro H; inversion H; subst;
      solve [apply L_alt_l, IHr1; assumption | apply L_alt_r, IHr2; assumption].
  - split; intro H.
    + inversion H; subst.
      change (c :: (s1 ++ s2)%list) with ((c :: s1) ++ s2)%list.
      constructor; [apply IHr|]; assumption.
    + apply star_cons_inv in H as (s1 & s2 & -> & H1 & H2).
      constructor; [apply IHr|]; assumption.
Qed.

Lemma re_accepts_spec (r : re) (s : list ascii) :
  re_accepts r s = true <-> re_lang r s.
Proof.
  revert r. induction s as [|c s IH]; intro r; simpl.
  - apply nullable_spec.
  - rewrite IH. apply deriv_spec.
Qed.

Lemma lang_cat (r1 r2 : re) (s : list ascii) :
  re_lang (Cat r1 r2) s <->
  exists s1 s2, s = (s1 ++ s2)%list /\ re_lang r1 s1 /\ re_lang r2 s2.
Proof.
  split.
  - intro H; inversion H; subst; eauto.
  - intros (s1 & s2 & -> & H1 & H2); auto with re.
Qed.

Lemma lang_eps (s : list ascii) : re_lang Eps s <-> s = [].
Proof. split; [intro H; inversion H; reflexivity | intros ->; constructor]. Qed.

Lemma lang_cls (p : ascii -> bool) (s : list ascii) :
  re_lang (Cls p) s <-> exists c, s = [c] /\ p c = true.
Proof.
  split.
  - intro H; inversion H; subst; eauto.
  - intros (c & -> & H); auto with re.
Qed.

Lemma lang_Lit (k : string) (s : list ascii) :
  re_lang (Lit k) s <-> s = list_ascii_of_string k.
Proof.
  revert s; induction k as [|a k IH]; intro s; simpl.
  - apply lang_eps.
  - rewrite lang_cat. split.
    + intros (s1 & s2 & -> & H1 & H2).
      apply lang_cls in H1 as (c & -> & Hc). apply Ascii.eqb_eq in Hc as ->.
      apply IH in H2 as ->. reflexivity.
    + intros ->. exists [a], (list_ascii_of_string k). repeat split.
      * constructor. apply Ascii.eqb_refl.
      * apply IH; reflexivity.
Qed.

Lemma lang_star_cls (p : ascii -> bool) (s : list ascii) :
  re_lang (Star (Cls p)) s <-> forallb p s = true.
Proof.
  split.
  - intro H. remember (Star (Cls p)) as r eqn:Er.
    induction H; try discriminate; [reflexivity|].
    injection Er as ->. inversion H; subst. simpl.
    rewrite IHre_lang2 by reflexivity.
    match goal with Hc : p _ = true |- _ => rewrite Hc end. reflexivity.
  - induction s as [|c s IH]; simpl; intro H; [constructor|].
    apply andb_true_iff in H as [Hc Hs].
    change (c :: s) with ([c] ++ s)%list. constructor; auto with re.
Qed.

Lemma lang_star_any (s : list ascii) : re_lang (Star (Cls cls_any)) s.
Proof. apply lang_star_cls. induction s; simpl; auto. Qed.

Lemma lang_rep_cls (n : nat) (p : ascii -> bool) (s : list ascii) :
  re_lang (Rep n (Cls p)) s <-> List.length s = n /\ forallb p s = true.
Proof.
  revert s; induction n as [|n IH]; intro s; simpl.
  - rewrite lang_eps. split.
    + intros ->; auto.
    + intros [H _]. destruct s; [reflexivity | discriminate].
  - rewrite lang_cat. split.
    + intros (s1 & s2 & -> & H1 & H2).
      apply lang_cls in H1 as (c & -> & Hc). apply IH in H2 as [Hl Hf].
      simpl. rewrite Hc, Hf, Hl. auto.
    + intros [Hl Hf]. destruct s as [|c s]; [discriminate|].
      simpl in Hl, Hf. apply andb_true_iff in Hf as [Hc Hf].
      exists [c], s. repeat split; [constructor; assumption|].
      apply IH. split; [congruence | assumption].
Qed.

(** A pattern [^KEYWORD\s]: the text starts with the keyword and a
    whitespace byte. *)
Lemma anchored_keyword_match (k s : string) :
  regexp_Match (mkRegexp true (Cat (Lit k) (Cls cls_space)) false) s = true <->
  exists c rest,
    list_ascii_of_string s = (list_ascii_of_string k ++ c :: rest)%list
    /\ cls_space c = true.
Proof.
  unfold regexp_Match; simpl. rewrite re_accepts_spec. split.
  - intro H.
    apply lang_cat in H as (s0 & s1 & E & H0 & H1). apply lang_eps in H0 as ->.
    apply lang_cat in H1 as (s2 & s3 & -> & H2 & _).
    apply lang_cat in H2 as (s4 & s5 & -> & H4 & H5).
    apply lang_Lit in H4 as ->. apply lang_cls in H5 as (c & -> & Hc).
    exists c, s3. split; [|assumption].
    simpl in E. rewrite E, <- app_assoc. reflexivity.
  - intros (c & rest & E & Hc). rewrite E.
    change (list_ascii_of_string k ++ c :: rest)%list
      with ([] ++ (list_ascii_of_string k ++ c :: rest))%list.
    constructor; [constructor|].
    replace (list_ascii_of_string k ++ c :: rest)%list
      with ((list_ascii_of_string k ++ [c]) ++ rest)%list
      by (rewrite <- app_assoc; reflexivity).
    constructor; [|apply lang_star_any].
    constructor; [apply lang_Lit; reflexivity | constructor; assumption].
Qed.

(** The pattern [GROUP\s] has no anchor: the keyword and the whitespace
    byte may stand anywhere in the text. *)
Lemma groupLine_match (s : string) :
  regexp_Match groupLine s = true <->
  exists pre c rest,
    list_ascii_of_string s = (pre ++ list_ascii_of_string "GROUP" ++ c :: rest)%list
    /\ cls_space c = true.
Proof.
  unfold regexp_Match, groupLine.
  cbn [anchored_start anchored_end body]. rewrite re_accepts_spec. split.
  - intro H.
    apply lang_cat in H as (s0 & s1 & E & _ & H1).
    apply lang_cat in H1 as (s2 & s3 & -> & H2 & _).
    apply lang_cat in H2 as (s4 & s5 & -> & H4 & H5).
    apply lang_Lit in H4 as ->. apply lang_cls in H5 as (c & -> & Hc).
    exists s0, c, s3. split; [|assumption].
    rewrite E, <- app_assoc. reflexivity.
  - intros (pre & c & rest & E & Hc). rewrite E.
    constructor; [apply lang_star_any|].
    replace (list_ascii_of_string "GROUP" ++ c :: rest)%list
      with ((list_ascii_of_string "GROUP" ++ [c]) ++ rest)%list
      by (rewrite <- app_assoc; reflexivity).
    constructor; [|apply lang_star_any].
    constructor; [apply lang_Lit; reflexivity | constructor; assumption].
Qed.

(** The directory pattern accepts exactly the names of the shape the
    specification describes. *)
Lemma resultDirNamePattern_spec (name : string) :
  regexp_Match resultDirNamePattern name = true <-> resultDirName name.
Proof.
  unfold regexp_Match, resultDirNamePattern, resultDirName, Plus.
  cbn [anchored_start anchored_end body]. rewrite re_accepts_spec. split.
  - intro H.
    apply lang_cat in H as (s0 & s1 & E & H0 & H1). apply lang_eps in H0 as ->.
    apply lang_cat in H1 as (s2 & s3 & -> & H2 & H3). apply lang_eps in H3 as ->.
    apply lang_cat in H2 as (pre & s4 & -> & Hpre & H4).
    apply lang_cat in Hpre as (p1 & p2 & -> & Hp1 & Hp2).
    apply lang_cls in Hp1 as (c & -> & Hc). apply lang_star_cls in Hp2.
    apply lang_cat in H4 as (d & s5 & -> & Hd & H5).
    apply lang_Lit in Hd as ->.
    apply lang_cat in H5 as (ts & extra & -> & Hts & Hex).
    apply lang_rep_cls in Hts as [Lts Fts]. apply lang_rep_cls in Hex as [Lex Fex].
    exists (c :: p2), ts, extra. repeat split; try assumption.
    + simpl in E. rewrite E. simpl. rewrite app_nil_r. reflexivity.
    + discriminate.
    + simpl. rewrite Hc, Hp2. reflexivity.
  - intros (pre & ts & extra & E & Hne & Hpre & Lts & Fts & Lex & Fex).
    rewrite E. destruct pre as [|c pre]; [congruence|].
    simpl in Hpre. apply andb_true_iff in Hpre as [Hc Hpre].
    change ((c :: pre) ++ "-"%char :: ts ++ extra)%list
      with ([] ++ ((c :: pre) ++ "-"%char :: ts ++ extra))%list.
    constructor; [constructor|].
    rewrite <- (app_nil_r ((c :: pre) ++ "-"%char :: ts ++ extra)%list).
    constructor; [|constructor].
    constructor.
    + change (c :: pre) with ([c] ++ pre)%list.
      constructor; [constructor; assumption | apply lang_star_cls; assumption].
    + change ("-"%char :: ts ++ extra)%list with (["-"%char] ++ (ts ++ extra))%list.
      constructor; [apply (lang_Lit "-"); reflexivity|].
      constructor; apply lang_rep_cls; auto.
Qed.

(** ** Machine integers *)

Lemma wrap64_id (z : Z) : int64_min <= z <= int64_max -> wrap64 z = z.
Proof.
  unfold wrap64, int64_min, int64_max. intro H.
  rewrite Z.mod_small; lia.
Qed.

Lemma wrap64_range (z : Z) : int64_min <= wrap64 z <= int64_max.
Proof.
  unfold wrap64, int64_min, int64_max.
  pose proof (Z.mod_pos_bound (z + 2 ^ 63) (2 ^ 64) ltac:(lia)). lia.
Qed.

(** ** The walk *)

Lemma FsNode_children_ind (Q : FsNode -> Prop) :
  (forall name e, Q (LstatErr name e)) ->
  (forall info readErr children, Forall Q children -> Q (Entry info readErr children)) ->
  forall n, Q n.
Proof.
  intros Hl He. fix IH 1. intros [name e | info readErr children].
  - apply Hl.
  - apply He. induction children as [|c cs IHcs]; constructor.
    + apply IH.
    + apply IHcs.
Qed.

Lemma visit_Entry (S : Type) (fn : WalkFunc S) path info readErr children s :
  visit fn path (Entry info readErr children) s =
  if negb (IsDir info) then fn path (Some info) None s
  else
    let '(s1, r1) := fn path (Some info) readErr s in
    match r1 with
    | Panic => (s1, Panic)
    | Ret err1 =>
        if isSome readErr || isSome err1 then (s1, Ret err1)
        else visit_children fn path children s1
    end.
Proof. reflexivity. Qed.

Lemma find_app_stop (A : Type) (f : A -> bool) (l1 l2 : list A) :
  find f (l1 ++ l2)%list =
  match find f l1 with Some x => Some x | None => find f l2 end.
Proof.
  induction l1 as [|a l1 IH]; simpl; [reflexivity|].
  destruct (f a); [reflexivity | apply IH].
Qed.

Lemma walk_result_app startTime l1 l2 logDir :
  walk_result startTime (l1 ++ l2)%list logDir =
  match find (walk_stops_at startTime) l1 with
  | Some _ => walk_result startTime l1 logDir
  | None => walk_result startTime l2 logDir
  end.
Proof.
  unfold walk_result. rewrite find_app_stop.
  destruct (find (walk_stops_at startTime) l1); reflexivity.
Qed.

Section WalkFunc.
Variable startTime : Z.
Hypothesis startTime_range : int64_min + 60 <= startTime <= int64_max.

Lemma walkFunc_Some path info err logDir :
  walkFunc startTime path (Some info) err logDir =
  if walkFunc_selects startTime info
  then (path, Ret (Some (Sentinel errFound)))
  else (logDir, Ret None).
Proof.
  unfold walkFunc, walkFunc_selects.
  rewrite wrap64_id by (unfold int64_min, int64_max in *; lia).
  destruct (IsDir info && regexp_Match resultDirNamePattern (Name info)); simpl;
    [destruct (startTime - 60 <? Time_Unix (ModTime info))|]; reflexivity.
Qed.

(** The walk makes the calls of [preorder], in that order, up to the
    first one that stops it. *)
Lemma visit_walkFunc (n : FsNode) :
  forall path logDir,
    visit (walkFunc startTime) path n logDir
    = walk_result startTime (preorder path n) logDir.
Proof.
  induction n as [name e | info readErr children IH] using FsNode_children_ind;
    intros path logDir.
  - reflexivity.
  - rewrite visit_Entry. unfold walk_result at 1.
    cbn [preorder find walk_stops_at snd].
    destruct (IsDir info) eqn:Edir; cbn [negb andb].
    + rewrite walkFunc_Some.
      destruct (walkFunc_selects startTime info) eqn:Esel.
      * destruct readErr; reflexivity.
      * destruct readErr as [re|]; cbn [isSome orb negb]; [reflexivity|].
        fold (walk_result startTime
                (flat_map (fun c => preorder (filepath_Join path (nodeName c)) c) children)
                logDir).
        clear Esel Edir. revert logDir.
        induction IH as [|c cs Hc _ IHcs]; intro logDir; [reflexivity|].
        cbn [visit_children flat_map]. rewrite Hc, walk_result_app.
        unfold walk_result at 1 2.
        destruct (find (walk_stops_at startTime)
                    (preorder (filepath_Join path (nodeName c)) c))
          as [[p [i|]]|] eqn:Ef.
        -- assert (Hret : child_error_returns c (Sentinel errFound) = true)
             by (destruct c; simpl; [reflexivity | apply orb_true_r]).
           rewrite Hret. reflexivity.
        -- reflexivity.
        -- apply IHcs.
    + rewrite walkFunc_Some.
      assert (Esel : walkFunc_selects startTime info = false)
        by (unfold walkFunc_selects; rewrite Edir; reflexivity).
      rewrite Esel. reflexivity.
Qed.

Lemma filepath_Walk_walkFunc root tree logDir :
  filepath_Walk (walkFunc startTime) root tree logDir
  = walk_result startTime (preorder root tree) logDir.
Proof.
  unfold filepath_Walk. rewrite visit_walkFunc. unfold walk_result.
  destruct (find (walk_stops_at startTime) (preorder root tree)) as [[p [i|]]|];
    reflexivity.
Qed.

Lemma walkFunc_selects_spec info :
  walkFunc_selects startTime info = true <->
  IsDir info = true /\ resultDirName (Name info)
  /\ startTime - 60 < Time_Unix (ModTime info).
Proof.
  unfold walkFunc_selects.
  rewrite !andb_true_iff, resultDirNamePattern_spec, Z.ltb_lt. tauto.
Qed.
End WalkFunc.

Lemma find_first (A : Type) (f : A -> bool) (before after : list A) (x : A) :
  (forall y, In y before -> f y = false) -> f x = true ->
  find f (before ++ x :: after)%list = Some x.
Proof.
  intros Hb Hx. induction before as [|b before IH]; simpl.
  - rewrite Hx; reflexivity.
  - rewrite (Hb b) by (left; reflexivity). apply IH.
    intros y Hy. apply Hb. right; assumption.
Qed.

Lemma find_none (A : Type) (f : A -> bool) (l : list A) :
  (forall y, In y l -> f y = false) -> find f l = None.
Proof.
  induction l as [|a l IH]; simpl; intro H; [reflexivity|].
  rewrite (H a) by (left; reflexivity). apply IH.
  intros y Hy. apply H. right; assumption.
Qed.

(** ** C1: which results directory the walk selects *)

(** C1 (as amended).  With [startTime] an [int64] from which 60 can be
    subtracted, a directory met by the walk is selected if and only if its
    name has the shape [<prefix>-<14 digits><3 digits>] and its modification
    time, in whole seconds, is strictly greater than [startTime - 60].
    The first entry of the traversal that is such a directory is where the
    walk ends: [logDir] is its path, [filepath.Walk] returns [errFound] and
    [lookupResultsDir] returns nil, whatever comes later in the traversal.
    If the traversal has no such directory (and no entry with a nil
    [FileInfo]) the walk returns nil and [logDir] is unchanged.  A directory
    whose modification time is not after the bound is never selected. *)
Theorem C1_results_dir_selection
    (startTime : Z) (root : string) (tree : FsNode) (logDir : string) :
  int64_min + 60 <= startTime <= int64_max ->
  (forall info,
      walkFunc_selects startTime info = true <->
      IsDir info = true /\ resultDirName (Name info)
      /\ startTime - 60 < Time_Unix (ModTime info))
  /\ (forall path info err ld,
        walkFunc startTime path (Some info) err ld =
        if walkFunc_selects startTime info
        then (path, Ret (Some (Sentinel errFound))) else (ld, Ret None))
  /\ (forall before path info after rest,
        preorder root tree = (before ++ (path, Some info) :: after)%list ->
        (forall x, In x before -> walk_stops_at startTime x = false) ->
        walkFunc_selects startTime info = true ->
        filepath_Walk (walkFunc startTime) root tree logDir
          = (path, Ret (Some (Sentinel errFound)))
        /\ lookupResultsDir startTime root ((false, tree) :: rest) logDir
          = Finished (path, Ret None))
  /\ ((forall x, In x (preorder root tree) -> walk_stops_at startTime x = false) ->
      filepath_Walk (walkFunc startTime) root tree logDir = (logDir, Ret None))
  /\ (forall info,
        Time_Unix (ModTime info) <= startTime - 60 ->
        walkFunc_selects startTime info = false).
Proof.
  intro Hrange. split; [|split; [|split; [|split]]].
  - intro info. exact (walkFunc_selects_spec Hrange info).
  - intros. apply walkFunc_Some; assumption.
  - intros before path info after rest Hpre Hbefore Hsel.
    assert (Hw : filepath_Walk (walkFunc startTime) root tree logDir
                 = (path, Ret (Some (Sentinel errFound)))).
    { rewrite filepath_Walk_walkFunc by assumption.
      unfold walk_result. rewrite Hpre.
      rewrite (find_first (walk_stops_at startTime)) by assumption.
      reflexivity. }
    split; [exact Hw|].
    cbn [lookupResultsDir]. rewrite Hw. reflexivity.
  - intro Hnone. rewrite filepath_Walk_walkFunc by assumption.
    unfold walk_result. rewrite find_none by assumption. reflexivity.
  - intros info Hold. unfold walkFunc_selects.
    apply andb_false_iff; right. apply Z.ltb_ge. assumption.
Qed.

(** On the sample tree the new directory is selected, although an old one
    precedes it and a failing entry follows it. *)
Lemma C1_results_dir_selection_witness :
  filepath_Walk (walkFunc sample_startTime) "/results" sample_tree ""
  = ("/results/basicsimulation-20231114221325123", Ret (Some (Sentinel errFound))).
Proof.
  assert (Hrange : int64_min + 60 <= sample_startTime <= int64_max)
    by (unfold int64_min, int64_max, sample_startTime; lia).
  destruct (C1_results_dir_selection "/results" sample_tree "" Hrange)
    as (_ & _ & H & _).
  apply (H [("/results", Some sample_root);
            ("/results/basicsimulation-20231114221150123", Some sample_dir_old)]
           "/results/basicsimulation-20231114221325123" sample_dir_new
           [("/results/basicsimulation-20231114221325123/simulation.log", Some sample_log);
            ("/results/zz.tmp", None)]
           []).
  - reflexivity.
  - intros x [<- | [<- | []]]; vm_compute; reflexivity.
  - vm_compute; reflexivity.
Defined.

(** C1 as the specification words it fails on the bound itself: a directory
    whose name matches and whose modification time is exactly
    [startTime - 60s] passes the specification's test (time >= bound) and is
    not selected. *)
Lemma C1_counterexample_on_bound :
  IsDir sample_dir_on_bound = true
  /\ regexp_Match resultDirNamePattern (Name sample_dir_on_bound) = true
  /\ spec_recent_enough sample_startTime sample_dir_on_bound = true
  /\ filepath_Walk (walkFunc sample_startTime) "/results" sample_tree_on_bound ""
     = ("", Ret None)
  /\ lookupResultsDir sample_startTime "/results" [(false, sample_tree_on_bound)] ""
     = Pending.
Proof. vm_compute. repeat split; reflexivity. Qed.

(** ** C10: the walk function and a nil FileInfo *)

(** C10.  [walkFunc] never looks at its error argument, and with a nil
    [FileInfo] it panics whatever that argument is.  There is a traversal
    input (an entry whose [Lstat] fails and that no selected directory
    precedes) on which the walk panics, so that [lookupResultsDir] does not
    return an error and the process crashes. *)
Theorem C10_walkFunc_nil_FileInfo :
  (forall startTime path info e1 e2 logDir,
      walkFunc startTime path info e1 logDir = walkFunc startTime path info e2 logDir)
  /\ (forall startTime path err logDir,
        walkFunc startTime path None err logDir = (logDir, Panic))
  /\ (exists tree,
        forall startTime root logDir rest env,
          filepath_Walk (walkFunc startTime) root tree logDir = (logDir, Panic)
          /\ lookupResultsDir startTime root ((false, tree) :: rest) logDir
             = Finished (logDir, Panic)
          /\ (resultsPolls env = (false, tree) :: rest ->
              targetPolls env = [(false, StatOk sample_root)] ->
              RunMain_lookups startTime "linux" root env logDir = Crash)).
Proof.
  split; [|split].
  - intros startTime path [info|] e1 e2 logDir; reflexivity.
  - reflexivity.
  - exists (Entry sample_root None
              [LstatErr "zz.tmp" (PathError "lstat" "/results/zz.tmp" ENOENT)]).
    intros startTime root logDir rest env.
    assert (Hw : filepath_Walk (walkFunc startTime) root
                   (Entry sample_root None
                      [LstatErr "zz.tmp" (PathError "lstat" "/results/zz.tmp" ENOENT)])
                   logDir = (logDir, Panic)).
    { unfold filepath_Walk. rewrite visit_Entry.
      change (IsDir sample_root) with true. cbn [negb].
      unfold walkFunc at 1.
      change (IsDir sample_root) with true.
      change (regexp_Match resultDirNamePattern (Name sample_root)) with false.
      reflexivity. }
    split; [exact Hw|]. split.
    + cbn [lookupResultsDir]. rewrite Hw. reflexivity.
    + intros Hr Ht. unfold RunMain_lookups. rewrite Ht, Hr.
      cbn [lookupTargetDir]. change (IsDir sample_root) with true. cbn [negb].
      cbn [lookupResultsDir]. rewrite Hw. reflexivity.
Qed.

(** ** The tailing loop *)

Lemma idleDuration_in_range (waitTime : Z) :
  0 <= waitTime <= max_waitTime -> idleDuration waitTime = waitTime * time_Second.
Proof.
  unfold idleDuration, max_waitTime, time_Second. intro H.
  rewrite (@wrap64_id waitTime) by (unfold int64_min, int64_max; lia).
  apply wrap64_id. unfold int64_min, int64_max; lia.
Qed.

Section TailingLoop.
Variable PS : Type.
Variable P : LineParsers PS.
Variable waitTime : Z.
Variable gatlingVersion : string.

Lemma parseLoopBody_no_notification st p :
  notifications (snd (fst (parseLoopBody P waitTime gatlingVersion st p))) = O.
Proof.
  unfold parseLoopBody, notifications.
  destruct (pl_done p); [reflexivity|].
  destruct (pl_err p) as [| |e0]; cbn [readLog].
  - destruct (stringProcessor P _ gatlingVersion (pstate st)) as [ps1 [e|]];
      [destruct (errors_Is e errFatal)|]; reflexivity.
  - destruct (Time_After _ _); reflexivity.
  - destruct (stringProcessor P _ gatlingVersion (pstate st)) as [ps1 [e|]];
      [destruct (errors_Is e errFatal)|]; reflexivity.
Qed.

Lemma notifications_app (l1 l2 : list Event) :
  notifications (l1 ++ l2)%list = (notifications l1 + notifications l2)%nat.
Proof. unfold notifications. rewrite filter_app, length_app. reflexivity. Qed.

Lemma parseLoop_no_notification polls :
  forall st, notifications (snd (fst (parseLoop P waitTime gatlingVersion st polls))) = O.
Proof.
  induction polls as [|p rest IH]; intro st; [reflexivity|].
  cbn [parseLoop].
  pose proof (parseLoopBody_no_notification st p) as Hb.
  destruct (parseLoopBody P waitTime gatlingVersion st p) as [[st1 evs] ctl].
  cbn [fst snd] in Hb. destruct ctl.
  - specialize (IH st1).
    destruct (parseLoop P waitTime gatlingVersion st1 rest) as [[st2 evs2] exited].
    cbn [fst snd] in *. rewrite notifications_app, Hb, IH. reflexivity.
  - exact Hb.
Qed.

(** [fileProcessor] sends on [parserStopped] once when the loop is left,
    as its last action, and not before. *)
Lemma fileProcessor_notifies_once now0 ps0 polls :
  let '(_, evs, exited) := fileProcessor P waitTime gatlingVersion now0 ps0 polls in
  notifications evs = (if exited then 1%nat else O)
  /\ (exited = true -> exists evs0, evs = (evs0 ++ [SendParserStopped])%list).
Proof.
  unfold fileProcessor.
  pose proof (parseLoop_no_notification polls (mkTailState "" now0 ps0)) as H.
  destruct (parseLoop P waitTime gatlingVersion (mkTailState "" now0 ps0) polls)
    as [[st evs] exited].
  cbn [fst snd] in H. rewrite notifications_app, H. split.
  - destruct exited; reflexivity.
  - intros ->. eauto.
Qed.
End TailingLoop.

(** ** C2: the idle threshold *)

(** C2 (as amended).  Let the idle threshold [waitTime] be at most
    9223372036 seconds, so that its [Duration] is in range.  At an
    end-of-file poll, if the time since the last complete line is at most
    the threshold, the loop keeps the fragment, sleeps one second and goes
    on; if it is strictly more than the threshold the loop is left at this
    poll, whatever the later polls hold.  Over any run, [fileProcessor]
    sends exactly one completion notification if the loop was left, as its
    last action, and none while the loop is running. *)
Theorem C2_idle_threshold (PS : Type) (P : LineParsers PS)
    (waitTime : Z) (gatlingVersion : string) (st : TailState PS) (p : Poll) :
  0 <= waitTime <= max_waitTime ->
  pl_done p = false ->
  pl_err p = RdEOF ->
  (pl_now p - startWait st <= waitTime * time_Second ->
     parseLoopBody P waitTime gatlingVersion st p
     = (mkTailState (buf st ++ pl_bytes p) (startWait st) (pstate st),
        [Sleep time_Second], Continue))
  /\ (waitTime * time_Second < pl_now p - startWait st ->
      parseLoopBody P waitTime gatlingVersion st p
      = (st, [LogIdleStop waitTime], BreakParseLoop)
      /\ forall rest,
          parseLoop P waitTime gatlingVersion st (p :: rest)
          = (st, [LogIdleStop waitTime], true))
  /\ (forall now0 ps0 polls,
        let '(_, evs, exited) := fileProcessor P waitTime gatlingVersion now0 ps0 polls in
        notifications evs = (if exited then 1%nat else O)
        /\ (exited = true -> exists evs0, evs = (evs0 ++ [SendParserStopped])%list)).
Proof.
  intros Hw Hdone Heof.
  assert (Hbody : parseLoopBody P waitTime gatlingVersion st p =
            if waitTime * time_Second <? pl_now p - startWait st
            then (st, [LogIdleStop waitTime], BreakParseLoop)
            else (mkTailState (buf st ++ pl_bytes p) (startWait st) (pstate st),
                  [Sleep time_Second], Continue)).
  { unfold parseLoopBody. rewrite Hdone, Heof.
    unfold Time_After, Time_Add. rewrite idleDuration_in_range by assumption.
    destruct (startWait st + waitTime * time_Second <? pl_now p) eqn:E1;
      destruct (waitTime * time_Second <? pl_now p - startWait st) eqn:E2;
      try reflexivity;
      [apply Z.ltb_lt in E1; apply Z.ltb_ge in E2 | apply Z.ltb_ge in E1; apply Z.ltb_lt in E2];
      lia. }
  split; [|split].
  - intro Hle. rewrite Hbody.
    destruct (waitTime * time_Second <? pl_now p - startWait st) eqn:E;
      [apply Z.ltb_lt in E; lia | reflexivity].
  - intro Hlt.
    assert (E : (waitTime * time_Second <? pl_now p - startWait st) = true)
      by (apply Z.ltb_lt; assumption).
    rewrite E in Hbody. split; [exact Hbody|].
    intro rest. cbn [parseLoop]. rewrite Hbody. reflexivity.
  - intros now0 ps0 polls. apply fileProcessor_notifies_once.
Qed.

(** With a threshold of 5 seconds: a poll 5 seconds after the last line
    goes on, a poll 5 seconds and one nanosecond after it leaves the loop. *)
Lemma C2_idle_threshold_witness :
  parseLoopBody sample_parsers 5 "3.9" (mkTailState "" 0 O)
    (mkPoll false "" RdEOF 5000000000)
  = (mkTailState "" 0 O, [Sleep time_Second], Continue)
  /\ parseLoopBody sample_parsers 5 "3.9" (mkTailState "" 0 O)
       (mkPoll false "" RdEOF 5000000001)
     = (mkTailState "" 0 O, [LogIdleStop 5], BreakParseLoop).
Proof.
  split.
  - apply (C2_idle_threshold sample_parsers "3.9" (mkTailState "" 0 O)
             (mkPoll false "" RdEOF 5000000000));
      [unfold max_waitTime; lia | reflexivity | reflexivity | vm_compute; discriminate].
  - apply (C2_idle_threshold sample_parsers "3.9" (mkTailState "" 0 O)
             (mkPoll false "" RdEOF 5000000001));
      [unfold max_waitTime; lia | reflexivity | reflexivity | vm_compute; reflexivity].
Defined.

(** C2 as the specification words it fails at the threshold itself: with no
    new data and exactly [waitTime] seconds since the last line, the
    specification's test (elapsed >= threshold) holds and the loop does not
    stop: it sleeps and polls again, and no notification is sent. *)
Lemma C2_counterexample_at_threshold :
  spec_idle_reached 5 0 5000000000 = true
  /\ parseLoopBody sample_parsers 5 "3.9" (mkTailState "" 0 O)
       (mkPoll false "" RdEOF 5000000000)
     = (mkTailState "" 0 O, [Sleep time_Second], Continue)
  /\ fileProcessor sample_parsers 5 "3.9" 0 O [mkPoll false "" RdEOF 5000000000]
     = (mkTailState "" 0 O, [Sleep time_Second], false).
Proof. vm_compute. repeat split; reflexivity. Qed.

(** Beyond [max_waitTime] the [Duration] wraps around: with a threshold of
    9223372037 seconds the loop is left at the first end-of-file poll. *)
Lemma idleDuration_wraps :
  idleDuration (max_waitTime + 1) < 0
  /\ parseLoopBody sample_parsers (max_waitTime + 1) "3.9" (mkTailState "" 0 O)
       (mkPoll false "" RdEOF 1)
     = (mkTailState "" 0 O, [LogIdleStop (max_waitTime + 1)], BreakParseLoop).
Proof. vm_compute. split; reflexivity. Qed.

(** ** C5: a run header whose parsing fails *)

(** C5, at the input that breaks it.  A run header that holds "GROUP" and
    a whitespace byte somewhere (here one cut short after a description
    "GROUP x") is accepted by [runLine] and by the unanchored [groupLine];
    the group case comes before the run case in the switch, so the line is
    handed to the group parser: [runLineParser] is not called and nothing
    is wrapped in [errFatal].  Whatever the parsers are, the loop then
    reacts to the group parser's own result, as for a data line.  With
    parsers that fail on the short line, the failure is logged, the buffer
    is emptied and the loop goes on to process the next line. *)
Theorem C5_run_header_taken_for_group :
  regexp_Match runLine sample_line_run_group = true
  /\ regexp_Match groupLine sample_line_run_group = true
  /\ lineKind sample_line_run_group = KGroup
  /\ (forall (PS : Type) (P : LineParsers PS) gv ps,
        stringProcessor P sample_line_run_group gv ps
        = groupLineParser P sample_line_run_group ps)
  /\ (forall (PS : Type) (P : LineParsers PS) waitTime gv now0 ps0 now,
        parseLoopBody P waitTime gv (mkTailState "" now0 ps0)
          (mkPoll false sample_line_run_group RdNil now)
        = let '(ps1, err) := groupLineParser P sample_line_run_group ps0 in
          match err with
          | Some e =>
              if errors_Is e errFatal
              then (mkTailState sample_line_run_group now0 ps1,
                    [LogStringProcessingFailed e; LogCannotHandle], BreakParseLoop)
              else (mkTailState "" now ps1, [LogStringProcessingFailed e], Continue)
          | None => (mkTailState "" now ps1, [], Continue)
          end)
  /\ stringProcessor sample_parsers sample_line_run_group "3.9" O
     = (O, Some (Errorf "GROUP line contains unexpected amount of values"))
  /\ errors_Is (Errorf "GROUP line contains unexpected amount of values") errFatal = false
  /\ fileProcessor sample_parsers 5 "3.9" 0 O
       [mkPoll false sample_line_run_group RdNil 7;
        mkPoll false sample_line_user_group RdNil 8]
     = (mkTailState "" 8 1%nat,
        [LogStringProcessingFailed (Errorf "GROUP line contains unexpected amount of values")],
        false).
Proof.
  assert (Hk : lineKind sample_line_run_group = KGroup) by (vm_compute; reflexivity).
  assert (Hsp : forall (PS : Type) (P : LineParsers PS) gv ps,
             stringProcessor P sample_line_run_group gv ps
             = groupLineParser P sample_line_run_group ps).
  { intros PS P gv ps. unfold stringProcessor. rewrite Hk. reflexivity. }
  split; [vm_compute; reflexivity|].
  split; [vm_compute; reflexivity|].
  split; [exact Hk|].
  split; [exact Hsp|].
  split.
  - intros PS P waitTime gv now0 ps0 now. unfold parseLoopBody.
    cbn [pl_done pl_err pl_bytes pl_now buf startWait pstate app].
    change ("" ++ sample_line_run_group) with sample_line_run_group.
    rewrite Hsp.
    destruct (groupLineParser P sample_line_run_group ps0) as [ps1 [e|]];
      [destruct (errors_Is e errFatal)|]; reflexivity.
  - repeat split; vm_compute; reflexivity.
Qed.

(** ** C8: the fragment read at an end-of-file poll *)

Lemma append_nil_r (s : string) : s ++ "" = s.
Proof. induction s; simpl; congruence. Qed.

Lemma append_assoc (a b c : string) : (a ++ b) ++ c = a ++ (b ++ c).
Proof. induction a; simpl; congruence. Qed.

(** C8 (as amended).  At every end-of-file poll at which the loop goes on,
    the fragment read is appended to the buffer and nothing else of the
    state changes; so over any sequence of end-of-file polls that the loop
    is still running after, the buffer has become the old buffer followed
    by all the fragments read, in order. *)
Theorem C8_fragment_kept (PS : Type) (P : LineParsers PS)
    (waitTime : Z) (gatlingVersion : string) (st : TailState PS) (p : Poll) :
  pl_done p = false ->
  pl_err p = RdEOF ->
  snd (parseLoopBody P waitTime gatlingVersion st p) = Continue ->
  fst (parseLoopBody P waitTime gatlingVersion st p)
  = (mkTailState (buf st ++ pl_bytes p) (startWait st) (pstate st), [Sleep time_Second])
  /\ (forall polls st0,
        forallb eof_poll polls = true ->
        snd (parseLoop P waitTime gatlingVersion st0 polls) = false ->
        fst (fst (parseLoop P waitTime gatlingVersion st0 polls))
        = mkTailState (buf st0 ++ fragments polls)
            (startWait st0) (pstate st0)).
Proof.
  intros Hdone Heof Hc. split.
  - revert Hc. unfold parseLoopBody. rewrite Hdone, Heof.
    destruct (Time_After _ _); [discriminate | reflexivity].
  - clear. induction polls as [|q rest IH]; intros st0 Hall Hrun.
    + simpl. rewrite append_nil_r. destruct st0; reflexivity.
    + cbn [forallb] in Hall. apply andb_true_iff in Hall as [Hq Hall].
      unfold eof_poll in Hq. apply andb_true_iff in Hq as [Hqd Hqe].
      apply negb_true_iff in Hqd.
      destruct (pl_err q) eqn:Eq; try discriminate.
      cbn [parseLoop] in *. unfold parseLoopBody in *. rewrite Hqd, Eq in *.
      destruct (Time_After _ _); [discriminate|].
      specialize (IH (mkTailState (buf st0 ++ pl_bytes q) (startWait st0) (pstate st0)) Hall).
      destruct (parseLoop P waitTime gatlingVersion _ rest) as [[st2 evs2] exited].
      cbn [fst snd] in *. rewrite IH by assumption. cbn [buf startWait pstate].
      cbn [fragments fold_right]. rewrite append_assoc. reflexivity.
Qed.

(** With a threshold of 5 seconds, a fragment read 1 second after the
    start is kept in the buffer. *)
Lemma C8_fragment_kept_witness :
  fst (parseLoopBody sample_parsers 5 "3.9" (mkTailState "REQ" 0 O)
         (mkPoll false "UEST" RdEOF 1000000000))
  = (mkTailState "REQUEST" 0 O, [Sleep time_Second]).
Proof.
  apply (C8_fragment_kept sample_parsers 5 "3.9" (mkTailState "REQ" 0 O)
           (mkPoll false "UEST" RdEOF 1000000000));
    vm_compute; reflexivity.
Defined.

(** C8 as the specification words it fails at the poll that leaves the
    loop: the idle test comes before the write to the buffer, so the
    fragment read at that poll is not appended.  Here "REQ" is read and
    kept, then "UEST" is read at a poll past the threshold: the loop is
    left with "REQ" in the buffer, and no line was processed. *)
Lemma C8_counterexample_fragment_dropped :
  parseLoopBody sample_parsers 5 "3.9" (mkTailState "REQ" 0 O)
    (mkPoll false "UEST" RdEOF 5000000001)
  = (mkTailState "REQ" 0 O, [LogIdleStop 5], BreakParseLoop)
  /\ fileProcessor sample_parsers 5 "3.9" 0 O
       [mkPoll false "REQ" RdEOF 1000000000; mkPoll false "UEST" RdEOF 5000000001]
     = (mkTailState "REQ" 0 O,
        [Sleep time_Second; LogIdleStop 5; SendParserStopped], true)
  /\ "REQ" <> "REQ" ++ "UEST".
Proof. vm_compute. repeat split; try reflexivity. discriminate. Qed.

(** ** C3: the sink is told to stop only after the tailer has stopped *)

Lemma run_app (tr1 tr2 : list Action) (s : Sys) :
  run s (tr1 ++ tr2)%list =
  match run s tr1 with Some s1 => run s1 tr2 | None => None end.
Proof.
  revert s; induction tr1 as [|a tr1 IH]; intro s; simpl; [reflexivity|].
  destruct (step s a); [apply IH | reflexivity].
Qed.

Lemma notified_in_snoc (tr : list Action) (a : Action) :
  notified_in tr -> notified_in (tr ++ [a])%list.
Proof.
  intros (pre1 & pre2 & -> & H). exists pre1, (pre2 ++ [a])%list.
  split; [|assumption]. rewrite <- app_assoc. reflexivity.
Qed.

Lemma shutdown_inv_run (tr : list Action) :
  forall s, run sys0 tr = Some s -> shutdown_inv tr s.
Proof.
  induction tr as [|a tr IH] using rev_ind; intros s Hrun.
  - injection Hrun as <-. constructor; simpl; intros; try congruence; try tauto.
  - rewrite run_app in Hrun.
    destruct (run sys0 tr) as [s1|] eqn:E1; [|discriminate].
    specialize (IH s1 eq_refl). destruct IH as [I1 I2 I3 I4 I5].
    simpl in Hrun. destruct (step s1 a) as [s2|] eqn:Es; [|discriminate].
    injection Hrun as <-.
    destruct s1 as [td pd id tl mp se]; simpl in *.
    destruct a; simpl in Es;
      repeat match type of Es with
             | match ?x with _ => _ end = _ => destruct x; try discriminate
             | (if ?x then _ else _) = _ => destruct x; try discriminate
             end;
      injection Es as <-;
      constructor; simpl; intros;
      repeat match goal with
             | H : In _ (_ ++ [_])%list |- _ =>
                 apply in_app_or in H as [H | [H | []]]; try discriminate
             end;
      try discriminate; try congruence; try reflexivity;
      try solve [ apply in_or_app; left; auto; apply I1; discriminate
                | apply in_or_app; right; left; reflexivity
                | apply notified_in_snoc; auto; apply I2, I3; discriminate
                | apply I3; discriminate
                | split; discriminate
                | auto
                | exfalso; specialize (I3 ltac:(assumption)); discriminate
                | exfalso; destruct I4 as [? ?]; auto; congruence
                | exists tr, []; split; [reflexivity | apply I1; discriminate] ].
Qed.

(** C3.  In every run of the pipeline from its initial state, whatever the
    order of the external stop request and of the tailer leaving its loop:
    when the sink's context is cancelled the tailer's notification has been
    received; every [iCancel()] in the run comes after the main goroutine
    received that notification, which itself comes after the tailer left
    its loop; and [iCancel()] is not called twice. *)
Theorem C3_sink_cancelled_after_tailer (tr : list Action) (s : Sys) :
  run sys0 tr = Some s ->
  (iCtxDone s = true -> tailer s = TStopped)
  /\ (forall pre post,
        tr = (pre ++ CallICancel :: post)%list ->
        notified_in pre /\ ~ In CallICancel pre).
Proof.
  intro Hrun. split.
  - intro Hi. destruct (shutdown_inv_run tr Hrun) as [_ _ I3 I4 _].
    apply I3. apply I4. assumption.
  - intros pre post ->. rewrite run_app in Hrun.
    destruct (run sys0 pre) as [s1|] eqn:E1; [|discriminate].
    destruct (shutdown_inv_run pre E1) as [_ I2 I3 I4 I5].
    simpl in Hrun. destruct (mainPc s1) eqn:Em; try discriminate.
    split.
    + apply I2, I3. discriminate.
    + intro Hin. destruct (I4 (I5 Hin)) as [_ Hn]. congruence.
Qed.

(** Two runs: the stop request comes first and the main goroutine cancels
    the tailer's context twice before the tailer reacts; the tailer stops on
    its own and the stop request comes while the sink is being cancelled. *)
Lemma C3_sink_cancelled_after_tailer_witness :
  notified_in [ExternalStop; SelectTopDone; SelectTopDone; TailerLeavesLoop;
               RecvParserStopped]
  /\ notified_in [TailerLeavesLoop; RecvParserStopped; ExternalStop].
Proof.
  split.
  - destruct (C3_sink_cancelled_after_tailer
                [ExternalStop; SelectTopDone; SelectTopDone; TailerLeavesLoop;
                 RecvParserStopped; CallICancel; CallPCancel; SinkExits; WaitReturns]
                (s := mkSys true true true TStopped MReturned true) eq_refl)
      as [_ H].
    apply (H [ExternalStop; SelectTopDone; SelectTopDone; TailerLeavesLoop;
              RecvParserStopped]
             [CallPCancel; SinkExits; WaitReturns] eq_refl).
  - destruct (C3_sink_cancelled_after_tailer
                [TailerLeavesLoop; RecvParserStopped; ExternalStop; CallICancel;
                 CallPCancel; SinkExits; WaitReturns]
                (s := mkSys true true true TStopped MReturned true) eq_refl)
      as [_ H].
    apply (H [TailerLeavesLoop; RecvParserStopped; ExternalStop]
             [CallPCancel; SinkExits; WaitReturns] eq_refl).
Defined.

(** ** C4: the five line patterns *)

(** Two anchored patterns whose keywords differ at some position within
    both never accept the same text. *)
Ltac keyword_clash H1 H2 :=
  let c1 := fresh "c" in let r1 := fresh "r" in let E1 := fresh "E" in
  let c2 := fresh "c" in let r2 := fresh "r" in let E2 := fresh "E" in
  apply anchored_keyword_match in H1 as (c1 & r1 & E1 & _);
  apply anchored_keyword_match in H2 as (c2 & r2 & E2 & _);
  rewrite E1 in E2; simpl in E2; discriminate E2.

(** The four anchored patterns exclude one another. *)
Lemma anchored_patterns_exclusive (s : string) :
  (regexp_Match userLine s = true ->
     regexp_Match requestLine s = false /\ regexp_Match runLine s = false
     /\ regexp_Match errorLine s = false)
  /\ (regexp_Match requestLine s = true ->
      regexp_Match runLine s = false /\ regexp_Match errorLine s = false)
  /\ (regexp_Match runLine s = true -> regexp_Match errorLine s = false).
Proof.
  unfold userLine, requestLine, runLine, errorLine.
  split; [|split]; intro H; repeat split;
    apply not_true_is_false; intro H'; keyword_clash H H'.
Qed.

(** A line that takes no case of the switch is a classification failure. *)
Lemma stringProcessor_unknown (PS : Type) (P : LineParsers PS) line gv ps :
  lineKind line = KUnknown ->
  stringProcessor P line gv ps = (ps, Some (Errorf "Unknown line type encountered")).
Proof. intro H. unfold stringProcessor. rewrite H. reflexivity. Qed.

(** C4, at the input that breaks it.  The pattern [GROUP\s] is not anchored,
    so it also accepts a line of another kind that has "GROUP" and a
    whitespace byte somewhere in it.  The USER line of a scenario named
    "GROUP 1" is accepted by [userLine] and by [groupLine]; as the group
    case comes first in the switch, the line is handed to the group parser
    and never to the user parser. *)
Theorem C4_user_line_taken_for_group :
  regexp_Match userLine sample_line_user_group = true
  /\ regexp_Match groupLine sample_line_user_group = true
  /\ lineKind sample_line_user_group = KGroup
  /\ (forall (PS : Type) (P : LineParsers PS) gv ps,
        stringProcessor P sample_line_user_group gv ps
        = groupLineParser P sample_line_user_group ps)
  /\ stringProcessor sample_parsers sample_line_user_group "3.9" O = (1%nat, None)
  /\ lineKind sample_line_unknown = KUnknown
  /\ stringProcessor sample_parsers sample_line_unknown "3.9" O
     = (O, Some (Errorf "Unknown line type encountered")).
Proof.
  assert (Hk : lineKind sample_line_user_group = KGroup) by (vm_compute; reflexivity).
  split; [vm_compute; reflexivity|].
  split; [vm_compute; reflexivity|].
  split; [exact Hk|].
  split; [intros PS P gv ps; unfold stringProcessor; rewrite Hk; reflexivity|].
  repeat split; vm_compute; reflexivity.
Qed.

(** ** C6: the conversion of a timestamp *)

Lemma digit_val_Some (c : ascii) (d : Z) :
  digit_val c = Some d ->
  cls_digit c = true /\ d = Z.of_nat (nat_of_ascii c) - 48 /\ 0 <= d <= 9.
Proof.
  unfold digit_val. destruct (cls_digit c) eqn:E; [|discriminate].
  intro H; injection H as <-. split; [reflexivity|]. split; [reflexivity|].
  unfold cls_digit in E. apply andb_true_iff in E as [E1 E2].
  apply Nat.leb_le in E1, E2. lia.
Qed.

Lemma digit_val_None (c : ascii) : digit_val c = None -> cls_digit c = false.
Proof. unfold digit_val. destruct (cls_digit c); [discriminate | reflexivity]. Qed.

Lemma parseUint_loop_cons (c : ascii) (s : list ascii) (n : Z) :
  parseUint_loop (c :: s) n =
  match digit_val c with
  | None => (0, Some ErrSyntax)
  | Some d =>
      if uint64_max / 10 + 1 <=? n then (uint64_max, Some ErrRange)
      else if (((n * 10) mod 2 ^ 64 + d) mod 2 ^ 64 <? (n * 10) mod 2 ^ 64)
              || (uint64_max <? ((n * 10) mod 2 ^ 64 + d) mod 2 ^ 64)
           then (uint64_max, Some ErrRange)
           else parseUint_loop s (((n * 10) mod 2 ^ 64 + d) mod 2 ^ 64)
  end.
Proof. reflexivity. Qed.

(** When the loop of [ParseUint] ends without an error, the input is made
    of digits and the result is its decimal value. *)
Lemma parseUint_loop_ok (s : list ascii) :
  forall n un,
    0 <= n < 2 ^ 64 ->
    parseUint_loop s n = (un, None) ->
    forallb cls_digit s = true
    /\ un = decimal_digits_value s n
    /\ 0 <= un < 2 ^ 64.
Proof.
  induction s as [|c s IH]; intros n un Hn H.
  - injection H as <-. auto.
  - rewrite parseUint_loop_cons in H.
    destruct (digit_val c) as [d|] eqn:Ed; [|discriminate].
    apply digit_val_Some in Ed as (Hc & Hd & Hr).
    destruct (uint64_max / 10 + 1 <=? n) eqn:Ecut; [discriminate|].
    apply Z.leb_gt in Ecut.
    assert (Hn10 : 0 <= n * 10 < 2 ^ 64).
    { change (uint64_max / 10 + 1) with 1844674407370955162 in Ecut.
      change (2 ^ 64) with 18446744073709551616 in *. lia. }
    rewrite (Z.mod_small (n * 10)) in H by assumption.
    destruct (((n * 10 + d) mod 2 ^ 64 <? n * 10)
              || (uint64_max <? (n * 10 + d) mod 2 ^ 64)) eqn:Eov; [discriminate|].
    apply orb_false_iff in Eov as [Eov _]. apply Z.ltb_ge in Eov.
    assert (Hsum : 0 <= n * 10 + d < 2 ^ 64).
    { split; [lia|].
      destruct (Z_lt_ge_dec (n * 10 + d) (2 ^ 64)) as [Hlt | Hge]; [assumption|].
      exfalso.
      assert (Hm : (n * 10 + d) mod 2 ^ 64 = n * 10 + d - 2 ^ 64).
      { symmetry. apply (Z.mod_unique_pos _ _ 1);
          change (2 ^ 64) with 18446744073709551616 in *; lia. }
      rewrite Hm in Eov. change (2 ^ 64) with 18446744073709551616 in *. lia. }
    rewrite Z.mod_small in H by assumption.
    apply IH in H as (Hs & Hv & Hu); [|assumption].
    cbn [forallb]. rewrite Hc, Hs. repeat split; try tauto.
    rewrite Hv, Hd. reflexivity.
Qed.

(** A range error of the loop comes with the largest [uint64]; a byte that
    is not a digit always makes the loop fail. *)
Lemma parseUint_loop_err (s : list ascii) :
  forall n un e,
    parseUint_loop s n = (un, Some e) -> e = ErrRange -> un = uint64_max.
Proof.
  induction s as [|c s IH]; intros n un e H He; [discriminate|].
  rewrite parseUint_loop_cons in H.
  destruct (digit_val c); [|inversion H; congruence].
  destruct (_ <=? n); [inversion H; reflexivity|].
  destruct (_ || _); [inversion H; reflexivity|].
  eapply IH; eassumption.
Qed.

Lemma parseUint_loop_nondigit (s : list ascii) :
  forall n, forallb cls_digit s = false -> snd (parseUint_loop s n) <> None.
Proof.
  induction s as [|c s IH]; intros n H; [discriminate|].
  rewrite parseUint_loop_cons. cbn [forallb] in H.
  destruct (digit_val c) as [d|] eqn:Ed; [|simpl; discriminate].
  apply digit_val_Some in Ed as (Hc & _). rewrite Hc in H. simpl in H.
  destruct (_ <=? n); [simpl; discriminate|].
  destruct (_ || _); [simpl; discriminate|].
  apply IH; assumption.
Qed.

Lemma strconv_ParseUint_range_error (digits : list ascii) (un : Z) :
  strconv_ParseUint digits = (un, Some ErrRange) -> un = uint64_max.
Proof.
  unfold strconv_ParseUint. destruct digits; [discriminate|].
  intro H. eapply parseUint_loop_err; [eassumption | reflexivity].
Qed.

(** What [ParseInt] accepts is a decimal integer, and the result is its
    value, an [int64]. *)
Lemma strconv_ParseInt_Ok (s : string) (t : Z) :
  strconv_ParseInt s = Ok t ->
  decimal_of_string s = Some t /\ int64_min <= t <= int64_max.
Proof.
  unfold strconv_ParseInt, decimal_of_string.
  destruct (list_ascii_of_string s) as [|c rest]; [discriminate|].
  set (neg := Ascii.eqb c "-"%char).
  set (digits := if Ascii.eqb c "+"%char || neg then rest else c :: rest).
  destruct (strconv_ParseUint digits) as [un [[|]|]] eqn:Eu.
  - discriminate.
  - apply strconv_ParseUint_range_error in Eu. subst un.
    destruct neg; simpl; discriminate.
  - unfold strconv_ParseUint in Eu.
    destruct digits as [|d ds] eqn:Ed; [discriminate|].
    apply parseUint_loop_ok in Eu as (Hall & Hv & Hu);
      [|change (2 ^ 64) with 18446744073709551616; lia].
    rewrite Hall.
    destruct neg; cbn [negb andb].
    + destruct (2 ^ 63 <? un) eqn:Ec; [discriminate|].
      apply Z.ltb_ge in Ec. intro H; injection H as <-. rewrite <- Hv.
      assert (Ht : wrap64 (- wrap64 un) = - un).
      { destruct (Z.eq_dec un (2 ^ 63)) as [-> | Hne]; [reflexivity|].
        rewrite (@wrap64_id un) by (unfold int64_min, int64_max; lia).
        apply wrap64_id. unfold int64_min, int64_max; lia. }
      rewrite Ht. split; [reflexivity|]. unfold int64_min, int64_max; lia.
    + destruct (2 ^ 63 <=? un) eqn:Ec; [discriminate|].
      apply Z.leb_gt in Ec. intro H; injection H as <-. rewrite <- Hv.
      rewrite (@wrap64_id un) by (unfold int64_min, int64_max; lia).
      split; [reflexivity|]. unfold int64_min, int64_max; lia.
Qed.

(** What is not a decimal integer is refused. *)
Lemma strconv_ParseInt_not_decimal (s : string) :
  decimal_of_string s = None -> exists e, strconv_ParseInt s = Err e.
Proof.
  unfold strconv_ParseInt, decimal_of_string.
  destruct (list_ascii_of_string s) as [|c rest]; [eauto|].
  set (neg := Ascii.eqb c "-"%char).
  set (digits := if Ascii.eqb c "+"%char || neg then rest else c :: rest).
  intro H.
  destruct (strconv_ParseUint digits) as [un [[|]|]] eqn:Eu.
  - eauto.
  - apply strconv_ParseUint_range_error in Eu. subst un.
    destruct neg; simpl; eauto.
  - exfalso. unfold strconv_ParseUint in Eu.
    destruct digits as [|d ds] eqn:Ed; [discriminate|].
    destruct (forallb cls_digit (d :: ds)) eqn:Ef; [discriminate|].
    apply (parseUint_loop_nondigit _ 0) in Ef. rewrite Eu in Ef. apply Ef; reflexivity.
Qed.

Lemma timeFromUnixBytes_safe (ub : string) (t v : Z) :
  strconv_ParseInt ub = Ok t ->
  min_safe_ms <= t <= max_safe_ms ->
  timeFromUnixBytes ub v = Ok (t * oneMillisecond + v mod oneMillisecond)
  /\ 0 <= v mod oneMillisecond < oneMillisecond.
Proof.
  intros Hp Ht. unfold timeFromUnixBytes, rand_Int63n, time_Unix. rewrite Hp.
  assert (Hj : 0 <= v mod oneMillisecond < oneMillisecond)
    by (apply Z.mod_pos_bound; reflexivity).
  split; [|exact Hj].
  unfold min_safe_ms, max_safe_ms, oneMillisecond in *.
  rewrite (@wrap64_id (t * 1000000)) by (unfold int64_min, int64_max; lia).
  rewrite wrap64_id by (unfold int64_min, int64_max; lia).
  f_equal.
Qed.

(** C6 (as amended).  Let the byte string parse as the integer [t], with
    [-9223372036854 <= t <= 9223372036853] (the millisecond timestamps whose
    nanosecond value with any jitter is an [int64]).  Then [t] is the
    decimal value of the string, and the converted time is [t] milliseconds
    plus a jitter that lies in [0, 1ms), whatever the random draw; so of two
    such timestamps [t < t2] the first is converted to a strictly earlier
    time.  A byte string that is not a decimal integer is converted to an
    error. *)
Theorem C6_timestamp_jitter (ub : string) (t v : Z) :
  strconv_ParseInt ub = Ok t ->
  min_safe_ms <= t <= max_safe_ms ->
  decimal_of_string ub = Some t
  /\ timeFromUnixBytes ub v = Ok (t * oneMillisecond + v mod oneMillisecond)
  /\ 0 <= v mod oneMillisecond < oneMillisecond
  /\ (forall ub2 t2 v2 ns ns2,
        strconv_ParseInt ub2 = Ok t2 ->
        min_safe_ms <= t2 <= max_safe_ms ->
        t < t2 ->
        timeFromUnixBytes ub v = Ok ns ->
        timeFromUnixBytes ub2 v2 = Ok ns2 ->
        ns < ns2)
  /\ (forall ub3 v3,
        decimal_of_string ub3 = None -> exists e, timeFromUnixBytes ub3 v3 = Err e).
Proof.
  intros Hp Ht.
  destruct (timeFromUnixBytes_safe ub v Hp Ht) as [Hc Hj].
  split; [apply strconv_ParseInt_Ok; assumption|].
  split; [exact Hc|]. split; [exact Hj|]. split.
  - intros ub2 t2 v2 ns ns2 Hp2 Ht2 Hlt Hn Hn2.
    destruct (timeFromUnixBytes_safe ub2 v2 Hp2 Ht2) as [Hc2 Hj2].
    rewrite Hc in Hn. rewrite Hc2 in Hn2.
    injection Hn as <-. injection Hn2 as <-.
    unfold oneMillisecond in *. lia.
  - intros ub3 v3 Hd. apply strconv_ParseInt_not_decimal in Hd as [e He].
    unfold timeFromUnixBytes. rewrite He. eauto.
Qed.

(** The timestamp 1700000000000 with the draw 123456789. *)
Lemma C6_timestamp_jitter_witness :
  timeFromUnixBytes "1700000000000" 123456789 = Ok 1700000000000456789.
Proof.
  apply (C6_timestamp_jitter "1700000000000" (t := 1700000000000) 123456789).
  - vm_compute; reflexivity.
  - unfold min_safe_ms, max_safe_ms; lia.
Defined.

(** C6 as the specification words it fails for a large timestamp: the
    string "9223372036855" parses as a 64-bit integer, the multiplication by
    1000000 leaves the [int64] range and wraps around, and the converted
    time is far before the epoch: it is not within a millisecond of the
    timestamp, and it is earlier than the time converted from the smaller
    timestamp 0. *)
Lemma C6_counterexample_overflow :
  strconv_ParseInt "9223372036855" = Ok 9223372036855
  /\ timeFromUnixBytes "9223372036855" 0 = Ok (-9223372036854551616)
  /\ -9223372036854551616 < 9223372036855 * oneMillisecond
  /\ strconv_ParseInt "0" = Ok 0
  /\ timeFromUnixBytes "0" 0 = Ok 0
  /\ -9223372036854551616 < 0.
Proof. vm_compute. repeat split; reflexivity. Qed.

(** ** C7: waiting for the log file *)

Lemma waitForLog_skip (goos : string) (pre l : list (bool * StatResult)) :
  forallb not_exist_poll pre = true ->
  waitForLog goos (pre ++ l)%list = waitForLog goos l.
Proof.
  induction pre as [|[done st] pre IH]; intro H; [reflexivity|].
  cbn [forallb] in H. apply andb_true_iff in H as [Hx H].
  unfold not_exist_poll in Hx. cbn [fst snd] in Hx.
  apply andb_true_iff in Hx as [Hd He]. apply negb_true_iff in Hd. subst done.
  destruct st as [fi|e]; [discriminate|].
  cbn [app waitForLog]. rewrite He. cbn [negb]. apply IH; assumption.
Qed.

(** C7 (as amended).  While the context is not done and the path does not
    exist, [waitForLog] keeps polling.  At the first poll where the path
    exists it returns: nil exactly when the file is regular and, unless the
    platform is Windows, its permission bits read as a number are at least
    420 (octal 644); otherwise a fresh error, which is not
    [errStoppedByUser], so that [RunMain] exits with status 1.  A [Stat]
    error other than "does not exist" is returned as it is. *)
Theorem C7_waitForLog_outcome (goos : string) (pre : list (bool * StatResult)) :
  forallb not_exist_poll pre = true ->
  waitForLog goos pre = Pending
  /\ (forall fi rest,
        waitForLog goos (pre ++ (false, StatOk fi) :: rest) =
        if FileMode_IsRegular (Mode fi)
           && (String.eqb goos "windows" || (420 <=? FileMode_Perm (Mode fi)))
        then Finished None
        else Finished (Some (ErrorsNew
               "Something wrong happened when attempting to open simulation.log")))
  /\ onLookupError
       (ErrorsNew "Something wrong happened when attempting to open simulation.log")
     = OsExit 1
  /\ (forall e rest,
        os_IsNotExist (Some e) = false ->
        waitForLog goos (pre ++ (false, StatFail e) :: rest) = Finished (Some e)).
Proof.
  intro Hpre. split; [|split; [|split]].
  - rewrite <- (app_nil_r pre). rewrite waitForLog_skip by assumption. reflexivity.
  - intros fi rest. rewrite waitForLog_skip by assumption. reflexivity.
  - reflexivity.
  - intros e rest He. rewrite waitForLog_skip by assumption.
    cbn [waitForLog]. rewrite He. reflexivity.
Qed.

(** The file is missing at the first poll and is there, [-rw-r--r--], at
    the second. *)
Lemma C7_waitForLog_outcome_witness :
  waitForLog "linux" [sample_enoent_poll; (false, StatOk sample_log)] = Finished None.
Proof.
  destruct (C7_waitForLog_outcome "linux" [sample_enoent_poll] eq_refl) as (_ & H & _).
  apply (H sample_log []).
Defined.

(** C7 as the specification words it fails in both directions, as the test
    is a numeric comparison of the permission bits and not a test of the
    read bits of group and others.  A regular file [-rwx------] is not
    readable by group or others and is accepted; a regular file
    [-r--r--r--] is readable by group and others and is refused. *)
Lemma C7_counterexample_permission_test :
  FileMode_IsRegular mode_file_700 = true
  /\ spec_group_other_readable mode_file_700 = false
  /\ waitForLog "linux" [(false, StatOk (mkFileInfo "simulation.log" mode_file_700 0))]
     = Finished None
  /\ FileMode_IsRegular mode_file_444 = true
  /\ spec_group_other_readable mode_file_444 = true
  /\ waitForLog "linux" [(false, StatOk (mkFileInfo "simulation.log" mode_file_444 0))]
     = Finished (Some (ErrorsNew
         "Something wrong happened when attempting to open simulation.log")).
Proof. vm_compute. repeat split; reflexivity. Qed.

(** ** C9: a stop request during the lookups *)

Lemma lookupTargetDir_stop (dir : string) (pre : list (bool * StatResult)) x rest :
  lookupTargetDir dir pre = Pending ->
  lookupTargetDir dir (pre ++ (true, x) :: rest)%list
  = Finished (Some (Sentinel errStoppedByUser)).
Proof.
  induction pre as [|[done st] pre IH]; intro H; [reflexivity|].
  cbn [app lookupTargetDir] in *. destruct done; [discriminate|].
  destruct st as [fi|e].
  - destruct (negb (IsDir fi)); discriminate.
  - destruct (negb (os_IsNotExist (Some e))); [discriminate | apply IH; assumption].
Qed.

Lemma waitForLog_stop (goos : string) (pre : list (bool * StatResult)) x rest :
  waitForLog goos pre = Pending ->
  waitForLog goos (pre ++ (true, x) :: rest)%list
  = Finished (Some (Sentinel errStoppedByUser)).
Proof.
  induction pre as [|[done st] pre IH]; intro H; [reflexivity|].
  cbn [app waitForLog] in *. destruct done; [discriminate|].
  destruct st as [fi|e].
  - destruct (_ && _); discriminate.
  - destruct (negb (os_IsNotExist (Some e))); [discriminate | apply IH; assumption].
Qed.

Lemma lookupResultsDir_stop (startTime : Z) (dir : string)
    (pre : list (bool * FsNode)) x rest :
  forall logDir,
    lookupResultsDir startTime dir pre logDir = Pending ->
    exists logDir1,
      lookupResultsDir startTime dir (pre ++ (true, x) :: rest)%list logDir
      = Finished (logDir1, Ret (Some (Sentinel errStoppedByUser))).
Proof.
  induction pre as [|[done tree] pre IH]; intros logDir H.
  - exists logDir. reflexivity.
  - cbn [app lookupResultsDir] in *. destruct done; [discriminate|].
    destruct (filepath_Walk (walkFunc startTime) dir tree logDir) as [ld [|[err|]]].
    + discriminate.
    + destruct (error_is_sentinel err errFound); discriminate.
    + apply IH; assumption.
Qed.

(** C9.  In each of the three lookup loops, at whatever iteration the stop
    request is observed (the loop still polling until then), the loop
    returns [errStoppedByUser] and [RunMain] returns plainly, without
    [os.Exit].  Any other error returned by a lookup makes [RunMain] call
    [os.Exit(1)]. *)
Theorem C9_stop_during_lookup
    (startTime : Z) (goos abs : string) (env : LookupEnv) (logDir : string) :
  (forall pre x rest,
      targetPolls env = (pre ++ (true, x) :: rest)%list ->
      lookupTargetDir abs pre = Pending ->
      lookupTargetDir abs (targetPolls env) = Finished (Some (Sentinel errStoppedByUser))
      /\ RunMain_lookups startTime goos abs env logDir = PlainReturn)
  /\ (forall pre x rest,
        lookupTargetDir abs (targetPolls env) = Finished None ->
        resultsPolls env = (pre ++ (true, x) :: rest)%list ->
        lookupResultsDir startTime abs pre logDir = Pending ->
        (exists logDir1,
            lookupResultsDir startTime abs (resultsPolls env) logDir
            = Finished (logDir1, Ret (Some (Sentinel errStoppedByUser))))
        /\ RunMain_lookups startTime goos abs env logDir = PlainReturn)
  /\ (forall pre x rest logDir1,
        lookupTargetDir abs (targetPolls env) = Finished None ->
        lookupResultsDir startTime abs (resultsPolls env) logDir
        = Finished (logDir1, Ret None) ->
        logPolls env = (pre ++ (true, x) :: rest)%list ->
        waitForLog goos pre = Pending ->
        waitForLog goos (logPolls env) = Finished (Some (Sentinel errStoppedByUser))
        /\ RunMain_lookups startTime goos abs env logDir = PlainReturn)
  /\ (forall err,
        error_is_sentinel err errStoppedByUser = false ->
        (lookupTargetDir abs (targetPolls env) = Finished (Some err) ->
         RunMain_lookups startTime goos abs env logDir = OsExit 1)
        /\ (forall logDir1,
              lookupTargetDir abs (targetPolls env) = Finished None ->
              lookupResultsDir startTime abs (resultsPolls env) logDir
              = Finished (logDir1, Ret (Some err)) ->
              RunMain_lookups startTime goos abs env logDir = OsExit 1)
        /\ (forall logDir1,
              lookupTargetDir abs (targetPolls env) = Finished None ->
              lookupResultsDir startTime abs (resultsPolls env) logDir
              = Finished (logDir1, Ret None) ->
              waitForLog goos (logPolls env) = Finished (Some err) ->
              RunMain_lookups startTime goos abs env logDir = OsExit 1)).
Proof.
  split; [|split; [|split]].
  - intros pre x rest Hp Hpre.
    assert (H : lookupTargetDir abs (targetPolls env)
                = Finished (Some (Sentinel errStoppedByUser)))
      by (rewrite Hp; apply lookupTargetDir_stop; assumption).
    split; [exact H|]. unfold RunMain_lookups. rewrite H. reflexivity.
  - intros pre x rest Ht Hp Hpre.
    destruct (lookupResultsDir_stop startTime abs pre x rest logDir Hpre) as [ld H].
    rewrite <- Hp in H. split; [eauto|].
    unfold RunMain_lookups. rewrite Ht, H. reflexivity.
  - intros pre x rest ld Ht Hr Hp Hpre.
    assert (H : waitForLog goos (logPolls env)
                = Finished (Some (Sentinel errStoppedByUser)))
      by (rewrite Hp; apply waitForLog_stop; assumption).
    split; [exact H|]. unfold RunMain_lookups. rewrite Ht, Hr, H. reflexivity.
  - intros err Herr. unfold RunMain_lookups, onLookupError. repeat split.
    + intros ->. rewrite Herr. reflexivity.
    + intros ld -> ->. rewrite Herr. reflexivity.
    + intros ld -> -> ->. rewrite Herr. reflexivity.
Qed.

(** The stop request observed in the second iteration of the first, of the
    second and of the third loop; and a target path that is a file. *)
Lemma C9_stop_during_lookup_witness :
  RunMain_lookups sample_startTime "linux" "/results" (sample_env 1) "" = PlainReturn
  /\ RunMain_lookups sample_startTime "linux" "/results" (sample_env 2) "" = PlainReturn
  /\ RunMain_lookups sample_startTime "linux" "/results" (sample_env 3) "" = PlainReturn
  /\ RunMain_lookups sample_startTime "linux" "/results"
       (mkLookupEnv [(false, StatOk sample_log)] [] []) ""
     = OsExit 1.
Proof.
  split; [|split; [|split]].
  - destruct (C9_stop_during_lookup sample_startTime "linux" "/results" (sample_env 1) "")
      as (H & _).
    apply (H [(false, StatFail (PathError "stat" "/results" ENOENT))]
             (StatOk sample_root) []); reflexivity.
  - destruct (C9_stop_during_lookup sample_startTime "linux" "/results" (sample_env 2) "")
      as (_ & H & _).
    apply (H [(false, sample_tree_on_bound)] sample_tree []);
      vm_compute; reflexivity.
  - destruct (C9_stop_during_lookup sample_startTime "linux" "/results" (sample_env 3) "")
      as (_ & _ & H & _).
    apply (H [sample_enoent_poll] (StatOk sample_log) []
             "/results/basicsimulation-20231114221325123");
      vm_compute; reflexivity.
  - destruct (C9_stop_during_lookup sample_startTime "linux" "/results"
                (mkLookupEnv [(false, StatOk sample_log)] [] []) "")
      as (_ & _ & _ & H).
    destruct (H (Errorf "Was expecting directory at /results, but found a file") eq_refl)
      as (H1 & _).
    apply H1. vm_compute; reflexivity.
Defined.

(* ================================================================= *)
(** * Part V. Further properties of the code                          *)
(* ================================================================= *)

(** ** lookupTargetDir *)

Lemma lookupTargetDir_skip (dir : string) (pre l : list (bool * StatResult)) :
  forallb not_exist_poll pre = true ->
  lookupTargetDir dir (pre ++ l)%list = lookupTargetDir dir l.
Proof.
  induction pre as [|[done st] pre IH]; intro H; [reflexivity|].
  cbn [forallb] in H. apply andb_true_iff in H as [Hx H].
  unfold not_exist_poll in Hx. cbn [fst snd] in Hx.
  apply andb_true_iff in Hx as [Hd He]. apply negb_true_iff in Hd. subst done.
  destruct st as [fi|e]; [discriminate|].
  cbn [app lookupTargetDir]. rewrite He. cbn [negb]. apply IH; assumption.
Qed.

(** X1.  While the context is not done and the target path does not
    exist, [lookupTargetDir] keeps polling.  At the first poll where the
    path exists it returns nil if it is a directory, and otherwise an error
    that is not [errStoppedByUser]; a [Stat] error other than "does not
    exist" is returned wrapped (with %w), so that [errors.Is] still finds
    what it wraps and [RunMain] exits with status 1. *)
Theorem X1_lookupTargetDir_outcome (dir : string) (pre : list (bool * StatResult)) :
  forallb not_exist_poll pre = true ->
  lookupTargetDir dir pre = Pending
  /\ (forall fi rest,
        lookupTargetDir dir (pre ++ (false, StatOk fi) :: rest) =
        if IsDir fi then Finished None
        else Finished (Some (Errorf
               ("Was expecting directory at " ++ dir ++ ", but found a file"))))
  /\ (forall e rest,
        os_IsNotExist (Some e) = false ->
        exists err,
          lookupTargetDir dir (pre ++ (false, StatFail e) :: rest) = Finished (Some err)
          /\ (forall s, errors_Is err s = errors_Is e s)
          /\ onLookupError err = OsExit 1)
  /\ (forall msg, onLookupError (Errorf msg) = OsExit 1).
Proof.
  intro Hpre. split; [|split; [|split]].
  - rewrite <- (app_nil_r pre). rewrite lookupTargetDir_skip by assumption. reflexivity.
  - intros fi rest. rewrite lookupTargetDir_skip by assumption.
    cbn [lookupTargetDir]. destruct (IsDir fi); reflexivity.
  - intros e rest He. rewrite lookupTargetDir_skip by assumption.
    cbn [lookupTargetDir]. rewrite He. cbn [negb].
    eexists. split; [reflexivity|]. split; reflexivity.
  - reflexivity.
Qed.

(** The target is missing at the first poll and is a directory at the
    second. *)
Lemma X1_lookupTargetDir_outcome_witness :
  lookupTargetDir "/results"
    [(false, StatFail (PathError "stat" "/results" ENOENT)); (false, StatOk sample_root)]
  = Finished None.
Proof.
  destruct (X1_lookupTargetDir_outcome "/results"
              [(false, StatFail (PathError "stat" "/results" ENOENT))] eq_refl)
    as (_ & H & _).
  apply (H sample_root []).
Defined.

(** ** lookupResultsDir *)

Lemma quiet_walk (startTime : Z) (dir : string) (tree : FsNode) (logDir : string) :
  int64_min + 60 <= startTime <= int64_max ->
  forallb (fun y => negb (walk_stops_at startTime y)) (preorder dir tree) = true ->
  filepath_Walk (walkFunc startTime) dir tree logDir = (logDir, Ret None).
Proof.
  intros Hr Hq. rewrite filepath_Walk_walkFunc by assumption.
  unfold walk_result. rewrite find_none; [reflexivity|].
  intros y Hy. rewrite forallb_forall in Hq.
  apply negb_true_iff. apply Hq. assumption.
Qed.

Lemma lookupResultsDir_skip (startTime : Z) (dir : string)
    (pre l : list (bool * FsNode)) (logDir : string) :
  int64_min + 60 <= startTime <= int64_max ->
  forallb (quiet_poll startTime dir) pre = true ->
  lookupResultsDir startTime dir (pre ++ l)%list logDir
  = lookupResultsDir startTime dir l logDir.
Proof.
  intros Hr. induction pre as [|[done tree] pre IH]; intro H; [reflexivity|].
  cbn [forallb] in H. apply andb_true_iff in H as [Hx H].
  unfold quiet_poll in Hx. cbn [fst snd] in Hx.
  apply andb_true_iff in Hx as [Hd Hq]. apply negb_true_iff in Hd. subst done.
  cbn [app lookupResultsDir]. rewrite quiet_walk by assumption.
  apply IH; assumption.
Qed.

(** X2.  With [startTime] an [int64] from which 60 can be subtracted: as
    long as the context is not done and the walk meets no selected
    directory (and no nil [FileInfo]), [lookupResultsDir] walks again at
    the next poll and leaves [logDir] as it was; what it returns is what it
    returns from the first poll that is not such a one. *)
Theorem X2_lookupResultsDir_retries (startTime : Z) (dir : string)
    (pre : list (bool * FsNode)) (logDir : string) :
  int64_min + 60 <= startTime <= int64_max ->
  forallb (quiet_poll startTime dir) pre = true ->
  lookupResultsDir startTime dir pre logDir = Pending
  /\ forall l,
      lookupResultsDir startTime dir (pre ++ l)%list logDir
      = lookupResultsDir startTime dir l logDir.
Proof.
  intros Hr Hq. split.
  - rewrite <- (app_nil_r pre). rewrite lookupResultsDir_skip by assumption. reflexivity.
  - intro l. apply lookupResultsDir_skip; assumption.
Qed.

(** A first walk that meets only a directory on the bound, then the walk
    of the sample tree. *)
Lemma X2_lookupResultsDir_retries_witness :
  lookupResultsDir sample_startTime "/results"
    [(false, sample_tree_on_bound); (false, sample_tree)] "/old"
  = lookupResultsDir sample_startTime "/results" [(false, sample_tree)] "/old".
Proof.
  assert (Hrange : int64_min + 60 <= sample_startTime <= int64_max)
    by (unfold int64_min, int64_max, sample_startTime; lia).
  destruct (X2_lookupResultsDir_retries "/results" [(false, sample_tree_on_bound)]
              "/old" Hrange eq_refl) as [_ H].
  apply (H [(false, sample_tree)]).
Defined.

(** When the lookup returns nil, [logDir] is the path of an entry of a tree
    that was walked, and this entry passes the test of [walkFunc]. *)
Lemma lookupResultsDir_found (startTime : Z) (dir : string)
    (polls : list (bool * FsNode)) :
  int64_min + 60 <= startTime <= int64_max ->
  forall logDir0 logDir,
    lookupResultsDir startTime dir polls logDir0 = Finished (logDir, Ret None) ->
    exists tree info,
      In (false, tree) polls
      /\ In (logDir, Some info) (preorder dir tree)
      /\ walkFunc_selects startTime info = true.
Proof.
  intro Hr. induction polls as [|[done tree] polls IH]; intros ld0 ld H; [discriminate|].
  cbn [lookupResultsDir] in H. destruct done; [discriminate|].
  rewrite filepath_Walk_walkFunc in H by assumption. unfold walk_result in H.
  destruct (find (walk_stops_at startTime) (preorder dir tree)) as [[p [i|]]|] eqn:Ef.
  - cbn [error_is_sentinel sentinel_eqb] in H. injection H as <-.
    apply find_some in Ef as [Hin Hs].
    exists tree, i. split; [left; reflexivity|]. split; assumption.
  - discriminate.
  - apply IH in H as (t & i & Hin & Hp & Hs).
    exists t, i. split; [right; assumption|]. split; assumption.
Qed.

(** X3.  With [startTime] in range: when [lookupResultsDir] returns nil,
    [logDir] is the path of a directory of the tree walked at one of the
    polls, whose name has the results-directory shape and whose
    modification time, in whole seconds, is after [startTime - 60]. *)
Theorem X3_lookupResultsDir_sound (startTime : Z) (dir : string)
    (polls : list (bool * FsNode)) (logDir0 logDir : string) :
  int64_min + 60 <= startTime <= int64_max ->
  lookupResultsDir startTime dir polls logDir0 = Finished (logDir, Ret None) ->
  exists tree info,
    In (false, tree) polls
    /\ In (logDir, Some info) (preorder dir tree)
    /\ IsDir info = true
    /\ resultDirName (Name info)
    /\ startTime - 60 < Time_Unix (ModTime info).
Proof.
  intros Hr H.
  destruct (lookupResultsDir_found dir polls Hr _ H) as (t & i & Hin & Hp & Hs).
  exists t, i. split; [assumption|]. split; [assumption|].
  apply (walkFunc_selects_spec Hr i). assumption.
Qed.

Lemma X3_lookupResultsDir_sound_witness :
  exists tree info,
    In (false, tree) [(false, sample_tree_on_bound); (false, sample_tree)]
    /\ In ("/results/basicsimulation-20231114221325123", Some info)
         (preorder "/results" tree)
    /\ IsDir info = true
    /\ resultDirName (Name info)
    /\ sample_startTime - 60 < Time_Unix (ModTime info).
Proof.
  assert (Hrange : int64_min + 60 <= sample_startTime <= int64_max)
    by (unfold int64_min, int64_max, sample_startTime; lia).
  apply (X3_lookupResultsDir_sound "/results"
           [(false, sample_tree_on_bound); (false, sample_tree)] "" Hrange).
  vm_compute; reflexivity.
Defined.

(** X4.  With [startTime] in range, the only error [lookupResultsDir]
    ever returns is [errStoppedByUser], and it returns it only at a poll
    where the context is done: [walkFunc] returns nothing but nil and
    [errFound], so the branch that returns the error of the walk is never
    taken. *)
Theorem X4_lookupResultsDir_only_stop_error (startTime : Z) (dir : string)
    (polls : list (bool * FsNode)) (logDir0 logDir : string) (err : error) :
  int64_min + 60 <= startTime <= int64_max ->
  lookupResultsDir startTime dir polls logDir0 = Finished (logDir, Ret (Some err)) ->
  err = Sentinel errStoppedByUser
  /\ logDir = logDir0
  /\ exists pre x rest, polls = (pre ++ (true, x) :: rest)%list.
Proof.
  intro Hr. revert logDir0.
  induction polls as [|[done tree] polls IH]; intros ld0 H; [discriminate|].
  cbn [lookupResultsDir] in H. destruct done.
  - injection H as <- <-. repeat split. exists [], tree, polls. reflexivity.
  - rewrite filepath_Walk_walkFunc in H by assumption. unfold walk_result in H.
    destruct (find (walk_stops_at startTime) (preorder dir tree)) as [[p [i|]]|] eqn:Ef.
    + discriminate.
    + discriminate.
    + apply IH in H as (He & Hl & pre & x & rest & Hp).
      repeat split; try assumption.
      exists ((false, tree) :: pre), x, rest. rewrite Hp. reflexivity.
Qed.

Lemma X4_lookupResultsDir_only_stop_error_witness :
  Sentinel errStoppedByUser = Sentinel errStoppedByUser
  /\ "/old" = "/old"
  /\ exists pre x rest,
      [(false, sample_tree_on_bound); (true, sample_tree)]
      = (pre ++ (true, x) :: rest)%list.
Proof.
  assert (Hrange : int64_min + 60 <= sample_startTime <= int64_max)
    by (unfold int64_min, int64_max, sample_startTime; lia).
  apply (X4_lookupResultsDir_only_stop_error "/results"
           [(false, sample_tree_on_bound); (true, sample_tree)] "/old" Hrange).
  vm_compute; reflexivity.
Defined.

(** X5.  With [startTime] in range, which results directory a walk finds
    does not depend on what [logDir] held before: when the lookup found the
    directory [p] in a tree, it finds [p] again when it is run once more on
    the same tree, starting from [logDir = p] or from anything else. *)
Theorem X5_lookupResultsDir_idempotent (startTime : Z) (dir : string)
    (tree : FsNode) (logDir0 p : string) :
  int64_min + 60 <= startTime <= int64_max ->
  lookupResultsDir startTime dir [(false, tree)] logDir0 = Finished (p, Ret None) ->
  forall logDir1 rest,
    lookupResultsDir startTime dir ((false, tree) :: rest) logDir1
    = Finished (p, Ret None).
Proof.
  intros Hr H ld1 rest. cbn [lookupResultsDir] in *.
  rewrite filepath_Walk_walkFunc in * by assumption. unfold walk_result in *.
  destruct (find (walk_stops_at startTime) (preorder dir tree)) as [[q [i|]]|] eqn:Ef.
  - cbn [error_is_sentinel sentinel_eqb] in *. exact H.
  - discriminate.
  - discriminate.
Qed.

Lemma X5_lookupResultsDir_idempotent_witness :
  lookupResultsDir sample_startTime "/results" [(false, sample_tree)]
    "/results/basicsimulation-20231114221325123"
  = Finished ("/results/basicsimulation-20231114221325123", Ret None).
Proof.
  assert (Hrange : int64_min + 60 <= sample_startTime <= int64_max)
    by (unfold int64_min, int64_max, sample_startTime; lia).
  apply (X5_lookupResultsDir_idempotent "/results" sample_tree "" Hrange).
  vm_compute; reflexivity.
Defined.

(** ** RunMain: when the pipeline starts *)

(** X6.  With [startTime] in range: [RunMain] starts the two goroutines
    only when the three lookups returned nil, one after the other; then
    [logDir] is the path of a directory of a walked tree that has the
    results-directory shape and a modification time after
    [startTime - 60]. *)
Theorem X6_pipeline_starts_after_lookups
    (startTime : Z) (goos abs : string) (env : LookupEnv) (logDir0 logDir : string) :
  int64_min + 60 <= startTime <= int64_max ->
  RunMain_lookups startTime goos abs env logDir0 = StartPipeline logDir ->
  lookupTargetDir abs (targetPolls env) = Finished None
  /\ lookupResultsDir startTime abs (resultsPolls env) logDir0 = Finished (logDir, Ret None)
  /\ waitForLog goos (logPolls env) = Finished None
  /\ exists tree info,
      In (false, tree) (resultsPolls env)
      /\ In (logDir, Some info) (preorder abs tree)
      /\ IsDir info = true
      /\ resultDirName (Name info)
      /\ startTime - 60 < Time_Unix (ModTime info).
Proof.
  intros Hr H. unfold RunMain_lookups, onLookupError in H.
  destruct (lookupTargetDir abs (targetPolls env)) as [[e|]|] eqn:Et;
    [destruct (error_is_sentinel e errStoppedByUser); discriminate | | discriminate].
  destruct (lookupResultsDir startTime abs (resultsPolls env) logDir0)
    as [[ld [|[e|]]]|] eqn:Er;
    [discriminate
    | destruct (error_is_sentinel e errStoppedByUser); discriminate
    | | discriminate].
  destruct (waitForLog goos (logPolls env)) as [[e|]|] eqn:Ew;
    [destruct (error_is_sentinel e errStoppedByUser); discriminate | | discriminate].
  injection H as ->. repeat split.
  destruct (lookupResultsDir_found abs (resultsPolls env) Hr _ Er)
    as (t & i & Hin & Hp & Hs).
  exists t, i. split; [assumption|]. split; [assumption|].
  apply (walkFunc_selects_spec Hr i). assumption.
Qed.

Lemma X6_pipeline_starts_after_lookups_witness :
  lookupTargetDir "/results" (targetPolls (sample_env 0)) = Finished None
  /\ lookupResultsDir sample_startTime "/results" (resultsPolls (sample_env 0)) ""
     = Finished ("/results/basicsimulation-20231114221325123", Ret None)
  /\ waitForLog "linux" (logPolls (sample_env 0)) = Finished None
  /\ exists tree info,
      In (false, tree) (resultsPolls (sample_env 0))
      /\ In ("/results/basicsimulation-20231114221325123", Some info)
           (preorder "/results" tree)
      /\ IsDir info = true
      /\ resultDirName (Name info)
      /\ sample_startTime - 60 < Time_Unix (ModTime info).
Proof.
  assert (Hrange : int64_min + 60 <= sample_startTime <= int64_max)
    by (unfold int64_min, int64_max, sample_startTime; lia).
  apply (X6_pipeline_starts_after_lookups "linux" "/results" (sample_env 0) "" Hrange).
  vm_compute; reflexivity.
Defined.

(** ** waitForLog: the permission test, bit by bit *)

Lemma FileMode_Perm_range (m : FileMode) : 0 <= FileMode_Perm m < 512.
Proof.
  unfold FileMode_Perm, ModePerm. change 511 with (Z.ones 9).
  rewrite Z.land_ones by lia. apply Z.mod_pos_bound. reflexivity.
Qed.

Lemma FileMode_Perm_testbit (m : FileMode) (k : Z) :
  0 <= k < 9 -> Z.testbit (FileMode_Perm m) k = Z.testbit m k.
Proof.
  intro Hk. unfold FileMode_Perm, ModePerm. rewrite Z.land_spec.
  change 511 with (Z.ones 9). rewrite Z.ones_spec_low by lia. apply andb_true_r.
Qed.

(** X7.  A regular file whose mode has at least the bits of [-rw-r--r--]
    (octal 644: read and write for the owner, read for group and others)
    passes the test of [waitForLog], on every platform. *)
Theorem X7_waitForLog_accepts_644 (goos : string) (fi : FileInfo)
    (rest : list (bool * StatResult)) :
  FileMode_IsRegular (Mode fi) = true ->
  Z.land (Mode fi) 420 = 420 ->
  waitForLog goos ((false, StatOk fi) :: rest) = Finished None.
Proof.
  intros Hreg Hbits. cbn [waitForLog]. rewrite Hreg. cbn [andb].
  assert (Hbit : forall k, Z.testbit 420 k = true -> 0 <= k < 9 ->
                           Z.testbit (FileMode_Perm (Mode fi)) k = true).
  { intros k H420 Hk. rewrite FileMode_Perm_testbit by assumption.
    assert (H : Z.testbit (Z.land (Mode fi) 420) k = true) by (rewrite Hbits; exact H420).
    rewrite Z.land_spec in H. apply andb_true_iff in H. tauto. }
  pose proof (FileMode_Perm_range (Mode fi)) as Hr.
  pose proof (Hbit 8 eq_refl ltac:(lia)) as H8.
  pose proof (Hbit 7 eq_refl ltac:(lia)) as H7.
  pose proof (Hbit 5 eq_refl ltac:(lia)) as H5.
  pose proof (Hbit 2 eq_refl ltac:(lia)) as H2.
  apply Z.testbit_true in H8, H7, H5, H2; try lia.
  change (2 ^ 8) with 256 in H8. change (2 ^ 7) with 128 in H7.
  change (2 ^ 5) with 32 in H5. change (2 ^ 2) with 4 in H2.
  assert (Hge : (420 <=? FileMode_Perm (Mode fi)) = true).
  { apply Z.leb_le. generalize dependent (FileMode_Perm (Mode fi)). intros p.
    intros. Z.div_mod_to_equations. lia. }
  rewrite Hge, orb_true_r. reflexivity.
Qed.

(** A log file with mode [-rw-rw-r--] (octal 664). *)
Lemma X7_waitForLog_accepts_644_witness :
  waitForLog "linux" [(false, StatOk (mkFileInfo "simulation.log" 436 0))]
  = Finished None.
Proof.
  apply (X7_waitForLog_accepts_644 "linux" (mkFileInfo "simulation.log" 436 0) []);
    reflexivity.
Defined.

(** X8.  On a platform other than Windows, a file that [waitForLog]
    accepts is regular and its owner may read and write it (bits 0400 and
    0200 of the mode): no smaller set of permissions reaches 420. *)
Theorem X8_waitForLog_accepted_owner_rw (goos : string) (fi : FileInfo)
    (rest : list (bool * StatResult)) :
  String.eqb goos "windows" = false ->
  waitForLog goos ((false, StatOk fi) :: rest) = Finished None ->
  FileMode_IsRegular (Mode fi) = true
  /\ Z.testbit (Mode fi) 8 = true
  /\ Z.testbit (Mode fi) 7 = true.
Proof.
  intros Hos H. cbn [waitForLog] in H. rewrite Hos in H. cbn [orb] in H.
  destruct (FileMode_IsRegular (Mode fi)); [|discriminate].
  destruct (420 <=? FileMode_Perm (Mode fi)) eqn:Hge; [|discriminate].
  apply Z.leb_le in Hge. pose proof (FileMode_Perm_range (Mode fi)) as Hr.
  split; [reflexivity|].
  rewrite <- (FileMode_Perm_testbit (Mode fi) (k := 8)) by lia.
  rewrite <- (FileMode_Perm_testbit (Mode fi) (k := 7)) by lia.
  generalize dependent (FileMode_Perm (Mode fi)). intros p Hge Hr.
  split; apply Z.testbit_true; try lia.
  - change (2 ^ 8) with 256. Z.div_mod_to_equations. lia.
  - change (2 ^ 7) with 128. Z.div_mod_to_equations. lia.
Qed.

Lemma X8_waitForLog_accepted_owner_rw_witness :
  FileMode_IsRegular mode_file_700 = true
  /\ Z.testbit mode_file_700 8 = true
  /\ Z.testbit mode_file_700 7 = true.
Proof.
  apply (X8_waitForLog_accepted_owner_rw "linux"
           (mkFileInfo "simulation.log" mode_file_700 0) []); reflexivity.
Defined.

(** ** timeFromUnixBytes: what it accepts, and the way back *)

Lemma decimal_digits_value_cons (c : ascii) (s : list ascii) (n : Z) :
  decimal_digits_value (c :: s) n
  = decimal_digits_value s (n * 10 + (Z.of_nat (nat_of_ascii c) - 48)).
Proof. reflexivity. Qed.

Lemma cls_digit_val (c : ascii) :
  cls_digit c = true ->
  digit_val c = Some (Z.of_nat (nat_of_ascii c) - 48)
  /\ 0 <= Z.of_nat (nat_of_ascii c) - 48 <= 9.
Proof.
  intro H. unfold digit_val. rewrite H. split; [reflexivity|].
  unfold cls_digit in H. apply andb_true_iff in H as [H1 H2].
  apply Nat.leb_le in H1, H2. lia.
Qed.

Lemma decimal_digits_value_ge (s : list ascii) :
  forall n, forallb cls_digit s = true -> 0 <= n -> n <= decimal_digits_value s n.
Proof.
  induction s as [|c s IH]; intros n Hs Hn; [simpl; lia|].
  cbn [forallb] in Hs. apply andb_true_iff in Hs as [Hc Hs].
  apply cls_digit_val in Hc as [_ Hd].
  rewrite decimal_digits_value_cons.
  specialize (@IH (n * 10 + (Z.of_nat (nat_of_ascii c) - 48)) Hs ltac:(lia)). lia.
Qed.

(** On digits whose value is a [uint64] the loop of [ParseUint] ends
    without an error. *)
Lemma parseUint_loop_complete (s : list ascii) :
  forall n,
    forallb cls_digit s = true -> 0 <= n ->
    decimal_digits_value s n < 2 ^ 64 ->
    parseUint_loop s n = (decimal_digits_value s n, None).
Proof.
  induction s as [|c s IH]; intros n Hs Hn Hv; [reflexivity|].
  cbn [forallb] in Hs. apply andb_true_iff in Hs as [Hc Hs].
  apply cls_digit_val in Hc as [Hdv Hd].
  rewrite decimal_digits_value_cons in *.
  set (d := Z.of_nat (nat_of_ascii c) - 48) in *.
  pose proof (@decimal_digits_value_ge s (n * 10 + d) Hs ltac:(lia)) as Hge.
  assert (Hsum : 0 <= n * 10 + d < 2 ^ 64) by lia.
  assert (Hn10 : 0 <= n * 10 < 2 ^ 64) by lia.
  rewrite parseUint_loop_cons, Hdv.
  assert (Hcut : (uint64_max / 10 + 1 <=? n) = false).
  { apply Z.leb_gt. change (uint64_max / 10 + 1) with 1844674407370955162.
    change (2 ^ 64) with 18446744073709551616 in *. lia. }
  rewrite Hcut, (Z.mod_small (n * 10)) by assumption.
  rewrite (Z.mod_small (n * 10 + d)) by assumption.
  assert (Hchk : (n * 10 + d <? n * 10) || (uint64_max <? n * 10 + d) = false).
  { apply orb_false_iff. split; [apply Z.ltb_ge; lia|].
    apply Z.ltb_ge. unfold uint64_max. lia. }
  rewrite Hchk. apply IH; [assumption | lia | assumption].
Qed.

(** A decimal integer in the [int64] range is accepted, with its value. *)
Lemma strconv_ParseInt_complete (s : string) (t : Z) :
  decimal_of_string s = Some t ->
  int64_min <= t <= int64_max ->
  strconv_ParseInt s = Ok t.
Proof.
  unfold strconv_ParseInt, decimal_of_string, int64_min, int64_max.
  destruct (list_ascii_of_string s) as [|c rest]; [discriminate|].
  set (neg := Ascii.eqb c "-"%char).
  set (digits := if Ascii.eqb c "+"%char || neg then rest else c :: rest).
  destruct digits as [|d ds] eqn:Ed; [discriminate|].
  destruct (forallb cls_digit (d :: ds)) eqn:Hall; [|discriminate].
  intros Ht Hr.
  pose proof (@decimal_digits_value_ge (d :: ds) 0 Hall ltac:(lia)) as Hge.
  set (un := decimal_digits_value (d :: ds) 0) in *.
  assert (Hun : un < 2 ^ 64).
  { change (2 ^ 64) with 18446744073709551616.
    change (2 ^ 63) with 9223372036854775808 in Hr.
    destruct neg; injection Ht as <-; lia. }
  unfold strconv_ParseUint.
  rewrite (@parseUint_loop_complete (d :: ds) 0 Hall ltac:(lia) Hun). fold un.
  destruct neg; cbn [negb andb]; injection Ht as <-.
  - assert (Hc : (2 ^ 63 <? un) = false) by (apply Z.ltb_ge; lia).
    rewrite Hc. f_equal.
    destruct (Z.eq_dec un (2 ^ 63)) as [-> | Hne]; [reflexivity|].
    rewrite (@wrap64_id un) by (unfold int64_min, int64_max; lia).
    apply wrap64_id. unfold int64_min, int64_max; lia.
  - assert (Hc : (2 ^ 63 <=? un) = false) by (apply Z.leb_gt; lia).
    rewrite Hc. f_equal. apply wrap64_id. unfold int64_min, int64_max; lia.
Qed.

(** X9.  [timeFromUnixBytes] returns a time exactly for the byte strings
    that are decimal integers (an optional sign, then one or more digits)
    with a value in the [int64] range, whatever the random draw.  For every
    other byte string (empty, a sign alone, a letter or a blank somewhere,
    too large) it returns an error, which is neither [errFatal] nor
    [errStoppedByUser] nor wraps one of them. *)
Theorem X9_timeFromUnixBytes_accepts (ub : string) (v : Z) :
  ((exists ns, timeFromUnixBytes ub v = Ok ns) <->
   (exists t, decimal_of_string ub = Some t /\ int64_min <= t <= int64_max))
  /\ (forall e,
        timeFromUnixBytes ub v = Err e ->
        errors_Is e errFatal = false /\ errors_Is e errStoppedByUser = false).
Proof.
  split; [split|].
  - intros [ns H]. unfold timeFromUnixBytes in H.
    destruct (strconv_ParseInt ub) as [t|e] eqn:Ep; [|discriminate].
    exists t. apply strconv_ParseInt_Ok. assumption.
  - intros (t & Hd & Hr). unfold timeFromUnixBytes.
    rewrite (strconv_ParseInt_complete ub Hd Hr). eauto.
  - intros e H. unfold timeFromUnixBytes in H.
    destruct (strconv_ParseInt ub) as [t|e0] eqn:Ep; [discriminate|].
    injection H as <-.
    assert (Hn : exists fn num k, e0 = NumError fn num k).
    { unfold strconv_ParseInt in Ep.
      destruct (list_ascii_of_string ub) as [|c rest]; [inversion Ep; eauto|].
      destruct (strconv_ParseUint _) as [un [[|]|]];
        repeat match type of Ep with
               | (if ?b then _ else _) = _ => destruct b
               end; inversion Ep; eauto. }
    destruct Hn as (fn & num & k & ->). split; reflexivity.
Qed.

(** X10.  For a timestamp [t] in the safe range, the source millisecond is
    recovered from the converted time by dividing by [oneMillisecond], and
    the remainder is the jitter; so two conversions of the same timestamp
    give the same time only when their draws agree modulo
    [oneMillisecond]. *)
Theorem X10_timeFromUnixBytes_round_trip (ub : string) (t v ns : Z) :
  strconv_ParseInt ub = Ok t ->
  min_safe_ms <= t <= max_safe_ms ->
  timeFromUnixBytes ub v = Ok ns ->
  ns / oneMillisecond = t
  /\ ns mod oneMillisecond = v mod oneMillisecond
  /\ (forall v2 ns2,
        timeFromUnixBytes ub v2 = Ok ns2 ->
        (ns = ns2 <-> v mod oneMillisecond = v2 mod oneMillisecond)).
Proof.
  intros Hp Ht Hn.
  destruct (timeFromUnixBytes_safe ub v Hp Ht) as [Hc Hj].
  rewrite Hc in Hn. injection Hn as <-.
  assert (Hdiv : (t * oneMillisecond + v mod oneMillisecond) / oneMillisecond = t).
  { symmetry. apply (Z.div_unique_pos _ _ _ (v mod oneMillisecond)); [assumption|].
    ring. }
  assert (Hmod : (t * oneMillisecond + v mod oneMillisecond) mod oneMillisecond
                 = v mod oneMillisecond).
  { symmetry. apply (Z.mod_unique_pos _ _ t); [assumption|]. ring. }
  split; [exact Hdiv|]. split; [exact Hmod|].
  intros v2 ns2 Hn2.
  destruct (timeFromUnixBytes_safe ub v2 Hp Ht) as [Hc2 _].
  rewrite Hc2 in Hn2. injection Hn2 as <-. split; intro H; lia.
Qed.

Lemma X10_timeFromUnixBytes_round_trip_witness :
  1700000000000456789 / oneMillisecond = 1700000000000
  /\ 1700000000000456789 mod oneMillisecond = 123456789 mod oneMillisecond.
Proof.
  destruct (X10_timeFromUnixBytes_round_trip "1700000000000" (t := 1700000000000)
              123456789 (ns := 1700000000000456789)) as (H1 & H2 & _).
  - vm_compute; reflexivity.
  - unfold min_safe_ms, max_safe_ms; lia.
  - vm_compute; reflexivity.
  - split; assumption.
Defined.

(** ** stringProcessor: which case a line takes *)

(** X11.  The case of the switch a line takes, in terms of the five
    patterns: a line that [requestLine] accepts is a Request line whatever
    else it holds; any other line that [groupLine] accepts is a Group line,
    also when it starts as a User, Error or Run line; a line is a User,
    Error or Run line when its own pattern accepts it and [groupLine] does
    not; and it is of no known kind exactly when none of the five accepts
    it. *)
Theorem X11_lineKind_table (line : string) :
  (lineKind line = KRequest <-> regexp_Match requestLine line = true)
  /\ (lineKind line = KGroup <->
      regexp_Match requestLine line = false /\ regexp_Match groupLine line = true)
  /\ (lineKind line = KUser <->
      regexp_Match userLine line = true /\ regexp_Match groupLine line = false)
  /\ (lineKind line = KError <->
      regexp_Match errorLine line = true /\ regexp_Match groupLine line = false)
  /\ (lineKind line = KRun <->
      regexp_Match runLine line = true /\ regexp_Match groupLine line = false)
  /\ (lineKind line = KUnknown <->
      regexp_Match requestLine line = false /\ regexp_Match groupLine line = false
      /\ regexp_Match userLine line = false /\ regexp_Match errorLine line = false
      /\ regexp_Match runLine line = false).
Proof.
  destruct (anchored_patterns_exclusive line) as (Hu & Hr & Hn).
  unfold lineKind.
  destruct (regexp_Match requestLine line) eqn:Er;
    destruct (regexp_Match groupLine line) eqn:Eg;
    destruct (regexp_Match userLine line) eqn:Eu;
    destruct (regexp_Match errorLine line) eqn:Ee;
    destruct (regexp_Match runLine line) eqn:En;
    try (destruct (Hu eq_refl) as (? & ? & ?); discriminate);
    try (destruct (Hr eq_refl) as (? & ?); discriminate);
    try (specialize (Hn eq_refl); discriminate);
    repeat split; intros; try discriminate; try tauto;
    repeat match goal with H : _ /\ _ |- _ => destruct H end; discriminate.
Qed.

(** ** The patterns, as texts *)

Lemma cls_space_spec (c : ascii) :
  cls_space c = true <->
  In c ["009"%char; "010"%char; "012"%char; "013"%char; " "%char].
Proof.
  unfold cls_space. rewrite !orb_true_iff, !Ascii.eqb_eq. simpl.
  intuition congruence.
Qed.

Lemma string_of_list_ascii_app (l1 l2 : list ascii) :
  string_of_list_ascii (l1 ++ l2)%list
  = string_of_list_ascii l1 ++ string_of_list_ascii l2.
Proof. induction l1 as [|a l1 IH]; simpl; congruence. Qed.

Lemma list_ascii_of_string_app (s1 s2 : string) :
  list_ascii_of_string (s1 ++ s2)
  = (list_ascii_of_string s1 ++ list_ascii_of_string s2)%list.
Proof. induction s1 as [|a s1 IH]; simpl; congruence. Qed.

Lemma anchored_keyword_text (k s : string) :
  regexp_Match (mkRegexp true (Cat (Lit k) (Cls cls_space)) false) s = true <->
  exists c rest,
    s = k ++ String c rest
    /\ In c ["009"%char; "010"%char; "012"%char; "013"%char; " "%char].
Proof.
  rewrite anchored_keyword_match. split.
  - intros (c & rest & E & Hc). exists c, (string_of_list_ascii rest).
    split; [|apply cls_space_spec; assumption].
    rewrite <- (string_of_list_ascii_of_string s), E, string_of_list_ascii_app.
    rewrite string_of_list_ascii_of_string. reflexivity.
  - intros (c & rest & -> & Hc). exists c, (list_ascii_of_string rest).
    split; [|apply cls_space_spec; assumption].
    rewrite list_ascii_of_string_app. reflexivity.
Qed.

(** X12.  What the five line patterns accept, as texts.  [userLine],
    [requestLine], [runLine] and [errorLine] accept the texts that start
    with their keyword followed by a tab, a newline, a form feed, a
    carriage return or a space.  [groupLine] accepts the texts that hold
    "GROUP" followed by such a byte at any position. *)
Theorem X12_line_patterns_text (s : string) :
  (regexp_Match userLine s = true <->
   exists c rest, s = "USER" ++ String c rest
     /\ In c ["009"%char; "010"%char; "012"%char; "013"%char; " "%char])
  /\ (regexp_Match requestLine s = true <->
      exists c rest, s = "REQUEST" ++ String c rest
        /\ In c ["009"%char; "010"%char; "012"%char; "013"%char; " "%char])
  /\ (regexp_Match runLine s = true <->
      exists c rest, s = "RUN" ++ String c rest
        /\ In c ["009"%char; "010"%char; "012"%char; "013"%char; " "%char])
  /\ (regexp_Match errorLine s = true <->
      exists c rest, s = "ERROR" ++ String c rest
        /\ In c ["009"%char; "010"%char; "012"%char; "013"%char; " "%char])
  /\ (regexp_Match groupLine s = true <->
      exists pre c rest, s = pre ++ "GROUP" ++ String c rest
        /\ In c ["009"%char; "010"%char; "012"%char; "013"%char; " "%char]).
Proof.
  split; [apply (anchored_keyword_text "USER")|].
  split; [apply (anchored_keyword_text "REQUEST")|].
  split; [apply (anchored_keyword_text "RUN")|].
  split; [apply (anchored_keyword_text "ERROR")|].
  rewrite groupLine_match. split.
  - intros (pre & c & rest & E & Hc).
    exists (string_of_list_ascii pre), c, (string_of_list_ascii rest).
    split; [|apply cls_space_spec; assumption].
    rewrite <- (string_of_list_ascii_of_string s), E, string_of_list_ascii_app.
    reflexivity.
  - intros (pre & c & rest & -> & Hc).
    exists (list_ascii_of_string pre), c, (list_ascii_of_string rest).
    split; [|apply cls_space_spec; assumption].
    rewrite list_ascii_of_string_app. reflexivity.
Qed.

(** ** fileProcessor: how iterations compose *)

Section TailingLoopMore.
Variable PS : Type.
Variable P : LineParsers PS.
Variable waitTime : Z.
Variable gatlingVersion : string.

Lemma parseLoop_app (l1 l2 : list Poll) :
  forall st,
    parseLoop P waitTime gatlingVersion st (l1 ++ l2)%list =
    let '(st1, evs1, exited1) := parseLoop P waitTime gatlingVersion st l1 in
    if exited1 then (st1, evs1, true)
    else
      let '(st2, evs2, exited2) := parseLoop P waitTime gatlingVersion st1 l2 in
      (st2, (evs1 ++ evs2)%list, exited2).
Proof.
  induction l1 as [|p l1 IH]; intro st.
  - cbn [app parseLoop].
    destruct (parseLoop P waitTime gatlingVersion st l2) as [[st2 evs2] ex2].
    reflexivity.
  - cbn [app parseLoop].
    destruct (parseLoopBody P waitTime gatlingVersion st p) as [[st1 evs] [|]];
      [|reflexivity].
    rewrite IH.
    destruct (parseLoop P waitTime gatlingVersion st1 l1) as [[st1' evs1] [|]];
      [reflexivity|].
    destruct (parseLoop P waitTime gatlingVersion st1' l2) as [[st2 evs2] ex2].
    rewrite app_assoc. reflexivity.
Qed.

(** Over end-of-file polls that the loop is still running after, the
    fragments pile up in the buffer and the loop sleeps once per poll. *)
Lemma parseLoop_eof_polls (polls : list Poll) :
  forall st,
    forallb eof_poll polls = true ->
    snd (parseLoop P waitTime gatlingVersion st polls) = false ->
    parseLoop P waitTime gatlingVersion st polls
    = (mkTailState (buf st ++ fragments polls) (startWait st) (pstate st),
       map (fun _ => Sleep time_Second) polls, false).
Proof.
  induction polls as [|q rest IH]; intros st Hall Hrun.
  - cbn [parseLoop fragments fold_right map]. rewrite append_nil_r.
    destruct st; reflexivity.
  - cbn [forallb] in Hall. apply andb_true_iff in Hall as [Hq Hall].
    unfold eof_poll in Hq. apply andb_true_iff in Hq as [Hqd Hqe].
    apply negb_true_iff in Hqd.
    destruct (pl_err q) eqn:Eq; try discriminate.
    cbn [parseLoop] in *. unfold parseLoopBody in *. rewrite Hqd, Eq in *.
    destruct (Time_After _ _); [discriminate|].
    specialize (IH (mkTailState (buf st ++ pl_bytes q) (startWait st) (pstate st)) Hall).
    destruct (parseLoop P waitTime gatlingVersion _ rest) as [[st2 evs2] exited].
    cbn [fst snd] in *. subst exited. specialize (IH eq_refl).
    injection IH as -> ->. cbn [buf startWait pstate fragments fold_right map app].
    rewrite append_assoc. reflexivity.
Qed.
End TailingLoopMore.

(** X13.  Cancellation is looked at before anything else in an iteration:
    at the first poll where the context is done the loop is left without a
    read, with the state as the earlier polls left it, whatever the idle
    timer says; [fileProcessor] then sends its one notification, and the
    polls after that one are never looked at. *)
Theorem X13_cancel_stops_at_once (PS : Type) (P : LineParsers PS)
    (waitTime : Z) (gatlingVersion : string) (now0 : Time) (ps0 : PS)
    (pre : list Poll) (p : Poll) (rest : list Poll) :
  snd (parseLoop P waitTime gatlingVersion (mkTailState "" now0 ps0) pre) = false ->
  pl_done p = true ->
  fileProcessor P waitTime gatlingVersion now0 ps0 (pre ++ p :: rest)
  = (fst (fst (parseLoop P waitTime gatlingVersion (mkTailState "" now0 ps0) pre)),
     (snd (fst (parseLoop P waitTime gatlingVersion (mkTailState "" now0 ps0) pre))
      ++ [LogClosingSignal; SendParserStopped])%list,
     true).
Proof.
  intros Hpre Hdone. unfold fileProcessor. rewrite parseLoop_app.
  destruct (parseLoop P waitTime gatlingVersion (mkTailState "" now0 ps0) pre)
    as [[st1 evs1] ex1].
  cbn [fst snd] in *. subst ex1.
  cbn [parseLoop]. unfold parseLoopBody. rewrite Hdone.
  rewrite <- app_assoc. reflexivity.
Qed.

(** A fragment is read, then the stop request arrives, 2 seconds after the
    start with a threshold of 5 seconds. *)
Lemma X13_cancel_stops_at_once_witness :
  fileProcessor sample_parsers 5 "3.9" 0 O
    [mkPoll false "REQ" RdEOF 1000000000; mkPoll true "" RdNil 2000000000;
     mkPoll false sample_line_request_short RdNil 3000000000]
  = (mkTailState "REQ" 0 O,
     [Sleep time_Second; LogClosingSignal; SendParserStopped], true).
Proof.
  apply (X13_cancel_stops_at_once sample_parsers 5 "3.9" 0 O
           [mkPoll false "REQ" RdEOF 1000000000] (mkPoll true "" RdNil 2000000000)
           [mkPoll false sample_line_request_short RdNil 3000000000]);
    reflexivity.
Defined.

(** X14.  A read that fails with an error other than end of file is
    handled like a read that succeeded with the same bytes: the buffer and
    those bytes go to [stringProcessor] as a line, terminated or not, and
    the buffer and the idle timer are reset; the only difference is the
    log entry for the read error, which comes first. *)
Theorem X14_read_error_processed_as_line (PS : Type) (P : LineParsers PS)
    (waitTime : Z) (gatlingVersion : string) (st : TailState PS) (p : Poll) (e : error) :
  pl_done p = false ->
  pl_err p = RdOther e ->
  parseLoopBody P waitTime gatlingVersion st p
  = let '(st1, evs, ctl) :=
      parseLoopBody P waitTime gatlingVersion st
        (mkPoll false (pl_bytes p) RdNil (pl_now p)) in
    (st1, LogReadError e :: evs, ctl).
Proof.
  intros Hdone Herr. unfold parseLoopBody. rewrite Hdone, Herr.
  cbn [pl_done pl_err pl_bytes pl_now].
  destruct (stringProcessor P (buf st ++ pl_bytes p) gatlingVersion (pstate st))
    as [ps1 [e1|]]; [destruct (errors_Is e1 errFatal)|]; reflexivity.
Qed.

(** A read error after the five bytes "USER" and a tab: what was read is
    handed to the user parser, which fails on it. *)
Lemma X14_read_error_processed_as_line_witness :
  parseLoopBody sample_parsers 5 "3.9" (mkTailState "" 0 O)
    (mkPoll false ("USER" ++ tab) (RdOther (PathError "read" "simulation.log" EIO)) 7)
  = (mkTailState "" 7 O,
     [LogReadError (PathError "read" "simulation.log" EIO);
      LogStringProcessingFailed (Errorf "USER line contains unexpected amount of values")],
     Continue).
Proof.
  apply (X14_read_error_processed_as_line sample_parsers 5 "3.9" (mkTailState "" 0 O)
           (mkPoll false ("USER" ++ tab)
              (RdOther (PathError "read" "simulation.log" EIO)) 7));
    reflexivity.
Defined.

Lemma last_cons_default (A : Type) (l : list A) :
  forall a d, last (a :: l) d = last l a.
Proof.
  induction l as [|x l IH]; intros a d; [reflexivity|].
  change (last (a :: x :: l) d) with (last (x :: l) d).
  rewrite (IH x d), (IH x a). reflexivity.
Qed.

(** X15.  While every read fails with an error other than end of file and
    returns no bytes, the loop never leaves on its own, whatever the clock
    and the idle threshold: each iteration logs the read error, fails to
    classify the empty line, and resets the idle timer.  The store of the parsers and the empty buffer stay as they are, and no
    notification is sent. *)
Theorem X15_failing_reads_never_stop (PS : Type) (P : LineParsers PS)
    (waitTime : Z) (gatlingVersion : string) (polls : list Poll) (st : TailState PS) :
  forallb failed_read_poll polls = true ->
  buf st = "" ->
  snd (parseLoop P waitTime gatlingVersion st polls) = false
  /\ buf (fst (fst (parseLoop P waitTime gatlingVersion st polls))) = ""
  /\ pstate (fst (fst (parseLoop P waitTime gatlingVersion st polls))) = pstate st
  /\ startWait (fst (fst (parseLoop P waitTime gatlingVersion st polls)))
     = last (map pl_now polls) (startWait st)
  /\ List.length (snd (fst (parseLoop P waitTime gatlingVersion st polls)))
     = (2 * List.length polls)%nat.
Proof.
  revert st. induction polls as [|p rest IH]; intros st Hall Hbuf.
  - cbn [parseLoop fst snd map last]. repeat split. assumption.
  - cbn [forallb] in Hall. apply andb_true_iff in Hall as [Hp Hall].
    unfold failed_read_poll in Hp.
    apply andb_true_iff in Hp as [Hp Hb]. apply andb_true_iff in Hp as [Hd He].
    apply negb_true_iff in Hd. apply String.eqb_eq in Hb.
    destruct (pl_err p) as [| |e] eqn:Ee; try discriminate.
    cbn [parseLoop]. unfold parseLoopBody. rewrite Hd, Ee, Hbuf, Hb.
    cbn [append]. unfold stringProcessor.
    change (lineKind "") with KUnknown. cbn [errors_Is].
    specialize (IH (mkTailState "" (pl_now p) (pstate st)) Hall eq_refl).
    destruct (parseLoop P waitTime gatlingVersion
                (mkTailState "" (pl_now p) (pstate st)) rest) as [[st2 evs2] ex2].
    cbn [fst snd buf pstate startWait] in *.
    destruct IH as (H1 & H2 & H3 & H4 & H5).
    repeat split; try assumption.
    + rewrite H4. cbn [map]. symmetry. apply last_cons_default.
    + cbn [app List.length]. rewrite H5. cbn [List.length]. lia.
Qed.

(** Three failing reads, the last one 100 seconds after the start, with a
    threshold of 5 seconds. *)
Lemma X15_failing_reads_never_stop_witness :
  snd (parseLoop sample_parsers 5 "3.9" (mkTailState "" 0 O)
         [mkPoll false "" (RdOther (ErrorsNew "invalid argument")) 1000000000;
          mkPoll false "" (RdOther (ErrorsNew "invalid argument")) 50000000000;
          mkPoll false "" (RdOther (ErrorsNew "invalid argument")) 100000000000])
  = false.
Proof.
  apply (X15_failing_reads_never_stop sample_parsers 5 "3.9"
           [mkPoll false "" (RdOther (ErrorsNew "invalid argument")) 1000000000;
            mkPoll false "" (RdOther (ErrorsNew "invalid argument")) 50000000000;
            mkPoll false "" (RdOther (ErrorsNew "invalid argument")) 100000000000]
           (mkTailState "" 0 O)); reflexivity.
Defined.

(** X16.  A line that arrives in pieces is put together again: after
    end-of-file polls that the loop is still running after, a read that
    does not end at end of file hands [stringProcessor] the buffer, the
    fragments of those polls and its own bytes, in this order; when the
    line is processed without an error the buffer is emptied and the idle
    timer restarts at that read. *)
Theorem X16_line_reassembled (PS : Type) (P : LineParsers PS)
    (waitTime : Z) (gatlingVersion : string) (st : TailState PS)
    (polls : list Poll) (p : Poll) (ps1 : PS) :
  forallb eof_poll polls = true ->
  snd (parseLoop P waitTime gatlingVersion st polls) = false ->
  pl_done p = false ->
  pl_err p <> RdEOF ->
  stringProcessor P (buf st ++ fragments polls ++ pl_bytes p) gatlingVersion (pstate st)
  = (ps1, None) ->
  parseLoop P waitTime gatlingVersion st (polls ++ [p])
  = (mkTailState "" (pl_now p) ps1,
     (map (fun _ => Sleep time_Second) polls ++ readLog p)%list, false).
Proof.
  intros Hall Hrun Hd He Hsp.
  rewrite parseLoop_app, (parseLoop_eof_polls P waitTime gatlingVersion polls st Hall Hrun).
  cbn [parseLoop]. unfold parseLoopBody, readLog. rewrite Hd.
  cbn [buf pstate startWait]. rewrite append_assoc.
  destruct (pl_err p) as [| |e]; [|congruence|]; rewrite Hsp;
    rewrite ?app_nil_r; reflexivity.
Qed.

(** A USER line read in three pieces. *)
Lemma X16_line_reassembled_witness :
  parseLoop sample_parsers 5 "3.9" (mkTailState "" 0 O)
    ([mkPoll false ("USER" ++ tab ++ "sc") RdEOF 1000000000;
      mkPoll false ("enario1" ++ tab ++ "1" ++ tab) RdEOF 2000000000]
     ++ [mkPoll false ("START" ++ tab ++ "1700000000000" ++ String "010"%char "")
           RdNil 3000000000])
  = (mkTailState "" 3000000000 1%nat,
     [Sleep time_Second; Sleep time_Second], false).
Proof.
  apply (X16_line_reassembled sample_parsers 5 "3.9" (mkTailState "" 0 O)
           [mkPoll false ("USER" ++ tab ++ "sc") RdEOF 1000000000;
            mkPoll false ("enario1" ++ tab ++ "1" ++ tab) RdEOF 2000000000]
           (mkPoll false ("START" ++ tab ++ "1700000000000" ++ String "010"%char "")
              RdNil 3000000000) (ps1 := 1%nat));
    try reflexivity.
  discriminate.
Defined.

(** X17.  Lines are processed in the order they are read, each by one call
    of [stringProcessor] on the store the previous call left: over reads of
    whole lines, starting from an empty buffer, the store of the parsers at
    the end and whether the loop was left are those of [process_lines] on
    the lines read; the loop is left exactly at the first fatal error. *)
Theorem X17_lines_in_order (PS : Type) (P : LineParsers PS)
    (waitTime : Z) (gatlingVersion : string) (polls : list Poll) (st : TailState PS) :
  forallb line_poll polls = true ->
  buf st = "" ->
  pstate (fst (fst (parseLoop P waitTime gatlingVersion st polls)))
  = fst (process_lines P gatlingVersion (map pl_bytes polls) (pstate st))
  /\ snd (parseLoop P waitTime gatlingVersion st polls)
     = snd (process_lines P gatlingVersion (map pl_bytes polls) (pstate st)).
Proof.
  revert st. induction polls as [|p rest IH]; intros st Hall Hbuf.
  - split; reflexivity.
  - cbn [forallb] in Hall. apply andb_true_iff in Hall as [Hp Hall].
    unfold line_poll in Hp. apply andb_true_iff in Hp as [Hd He].
    apply negb_true_iff in Hd.
    destruct (pl_err p) eqn:Ee; try discriminate.
    cbn [parseLoop map process_lines]. unfold parseLoopBody.
    rewrite Hd, Ee, Hbuf. cbn [append].
    destruct (stringProcessor P (pl_bytes p) gatlingVersion (pstate st)) as [ps1 [e|]].
    + destruct (errors_Is e errFatal); [split; reflexivity|].
      specialize (IH (mkTailState "" (pl_now p) ps1) Hall eq_refl).
      destruct (parseLoop P waitTime gatlingVersion (mkTailState "" (pl_now p) ps1) rest)
        as [[st2 evs2] ex2].
      exact IH.
    + specialize (IH (mkTailState "" (pl_now p) ps1) Hall eq_refl).
      destruct (parseLoop P waitTime gatlingVersion (mkTailState "" (pl_now p) ps1) rest)
        as [[st2 evs2] ex2].
      exact IH.
Qed.

(** A short REQUEST line (skipped), a USER line (sent), a short RUN line
    (fatal), a USER line that is never processed. *)
Lemma X17_lines_in_order_witness :
  pstate (fst (fst (parseLoop sample_parsers 5 "3.9" (mkTailState "" 0 O)
            [mkPoll false sample_line_request_short RdNil 1;
             mkPoll false sample_line_user_group RdNil 2;
             mkPoll false sample_line_run_short RdNil 3;
             mkPoll false sample_line_user_group RdNil 4])))
  = 1%nat
  /\ snd (parseLoop sample_parsers 5 "3.9" (mkTailState "" 0 O)
            [mkPoll false sample_line_request_short RdNil 1;
             mkPoll false sample_line_user_group RdNil 2;
             mkPoll false sample_line_run_short RdNil 3;
             mkPoll false sample_line_user_group RdNil 4])
     = true.
Proof.
  apply (X17_lines_in_order sample_parsers 5 "3.9"
           [mkPoll false sample_line_request_short RdNil 1;
            mkPoll false sample_line_user_group RdNil 2;
            mkPoll false sample_line_run_short RdNil 3;
            mkPoll false sample_line_user_group RdNil 4]
           (mkTailState "" 0 O)); reflexivity.
Defined.

(** X18.  Once the loop is left nothing more is read or processed: the
    state, the events and the single notification of [fileProcessor] are
    the same whatever polls would have followed. *)
Theorem X18_nothing_after_exit (PS : Type) (P : LineParsers PS)
    (waitTime : Z) (gatlingVersion : string) (now0 : Time) (ps0 : PS)
    (polls more : list Poll) :
  snd (fileProcessor P waitTime gatlingVersion now0 ps0 polls) = true ->
  fileProcessor P waitTime gatlingVersion now0 ps0 (polls ++ more)
  = fileProcessor P waitTime gatlingVersion now0 ps0 polls.
Proof.
  unfold fileProcessor. rewrite parseLoop_app.
  destruct (parseLoop P waitTime gatlingVersion (mkTailState "" now0 ps0) polls)
    as [[st1 evs1] ex1].
  cbn [snd]. intros ->. reflexivity.
Qed.

Lemma X18_nothing_after_exit_witness :
  fileProcessor sample_parsers 5 "3.9" 0 O
    ([mkPoll false "" RdEOF 5000000001]
     ++ [mkPoll false sample_line_user_group RdNil 5000000002])
  = fileProcessor sample_parsers 5 "3.9" 0 O [mkPoll false "" RdEOF 5000000001].
Proof.
  apply (X18_nothing_after_exit sample_parsers 5 "3.9" 0 O
           [mkPoll false "" RdEOF 5000000001]
           [mkPoll false sample_line_user_group RdNil 5000000002]).
  reflexivity.
Defined.

(** ** RunMain: the shutdown, further *)

Lemma pipeline_inv_run (tr : list Action) :
  forall s, run sys0 tr = Some s -> pipeline_inv s.
Proof.
  induction tr as [|a tr IH] using rev_ind; intros s Hrun.
  - injection Hrun as <-. constructor; simpl; intros;
      try discriminate; try congruence; intuition discriminate.
  - rewrite run_app in Hrun.
    destruct (run sys0 tr) as [s1|] eqn:E1; [|discriminate].
    specialize (IH s1 eq_refl). destruct IH as [I1 I2 I3 I4 I5 I6].
    simpl in Hrun. destruct (step s1 a) as [s2|] eqn:Es; [|discriminate].
    injection Hrun as <-.
    destruct s1 as [td pd id tl mp se]; simpl in *.
    destruct a; simpl in Es;
      repeat match type of Es with
             | match ?x with _ => _ end = _ => destruct x; try discriminate
             | (if ?x then _ else _) = _ => destruct x; try discriminate
             end;
      injection Es as <-;
      constructor; simpl; intros;
      try discriminate; try congruence; try reflexivity;
      try solve [ auto
                | left; reflexivity
                | right; reflexivity
                | apply I2; discriminate
                | apply I3; auto
                | apply I4; auto
                | apply I5; auto
                | exfalso; specialize (I2 ltac:(discriminate)); discriminate
                | intuition discriminate
                | intuition congruence ].
Qed.

(** X19.  In every run of the pipeline, the tailer's context is cancelled
    only once the external stop has been requested or the tailer has
    already stopped and been heard: [RunMain] never stops a tailer that is
    running when nobody asked for it. *)
Theorem X19_tailer_cancelled_only_on_stop (tr : list Action) (s : Sys) :
  run sys0 tr = Some s ->
  pCtxDone s = true ->
  topDone s = true \/ tailer s = TStopped.
Proof.
  intros Hrun Hp. destruct (pipeline_inv_run tr Hrun) as [I1 _ _ _ _ _]. auto.
Qed.

Lemma X19_tailer_cancelled_only_on_stop_witness :
  true = true \/ TInLoop = TStopped.
Proof.
  apply (X19_tailer_cancelled_only_on_stop [ExternalStop; SelectTopDone]
           (s := mkSys true true false TInLoop MSelect false) eq_refl eq_refl).
Defined.



(** ** fileProcessor: what the idle timer counts *)

(** X22.  Fragments do not restart the idle timer.  For a threshold in
    range, over a sequence of end-of-file polls (with or without new
    bytes, the context not done) the loop is left if and only if one of the
    polls comes more than the threshold after the last processed line; the
    bytes read in between make no difference. *)
Theorem X22_idle_timer_ignores_fragments (PS : Type) (P : LineParsers PS)
    (waitTime : Z) (gatlingVersion : string) (polls : list Poll) (st : TailState PS) :
  0 <= waitTime <= max_waitTime ->
  forallb eof_poll polls = true ->
  (snd (parseLoop P waitTime gatlingVersion st polls) = true <->
   exists p, In p polls /\ waitTime * time_Second < pl_now p - startWait st).
Proof.
  intros Hw. revert st. induction polls as [|q rest IH]; intros st Hall.
  - cbn [parseLoop snd]. split; [discriminate | intros (p & [] & _)].
  - cbn [forallb] in Hall. apply andb_true_iff in Hall as [Hq Hall].
    unfold eof_poll in Hq. apply andb_true_iff in Hq as [Hqd Hqe].
    apply negb_true_iff in Hqd.
    destruct (pl_err q) eqn:Eq; try discriminate.
    cbn [parseLoop]. unfold parseLoopBody. rewrite Hqd, Eq.
    unfold Time_After, Time_Add. rewrite idleDuration_in_range by assumption.
    destruct (startWait st + waitTime * time_Second <? pl_now q) eqn:Et.
    + apply Z.ltb_lt in Et. cbn [snd]. split; [|reflexivity].
      intros _. exists q. split; [left; reflexivity | lia].
    + apply Z.ltb_ge in Et.
      specialize (IH (mkTailState (buf st ++ pl_bytes q) (startWait st) (pstate st)) Hall).
      destruct (parseLoop P waitTime gatlingVersion _ rest) as [[st2 evs2] ex2].
      cbn [snd startWait] in *. rewrite IH. split.
      * intros (p & Hin & Hp). exists p. split; [right; assumption | assumption].
      * intros (p & [<- | Hin] & Hp); [lia|]. exists p. split; assumption.
Qed.

(** With a threshold of 5 seconds: fragments at 2, 4 and 6 seconds after
    the last line; the loop is left at the third. *)
Lemma X22_idle_timer_ignores_fragments_witness :
  snd (parseLoop sample_parsers 5 "3.9" (mkTailState "" 0 O)
         [mkPoll false "US" RdEOF 2000000000; mkPoll false "ER" RdEOF 4000000000;
          mkPoll false tab RdEOF 6000000000])
  = true.
Proof.
  apply (X22_idle_timer_ignores_fragments sample_parsers "3.9"
           [mkPoll false "US" RdEOF 2000000000; mkPoll false "ER" RdEOF 4000000000;
            mkPoll false tab RdEOF 6000000000] (mkTailState "" 0 O)).
  - unfold max_waitTime; lia.
  - reflexivity.
  - exists (mkPoll false tab RdEOF 6000000000).
    split; [right; right; left; reflexivity | vm_compute; reflexivity].
Defined.

(** ** fileProcessor: a line on which stringProcessor fails *)

(** X23.  When [stringProcessor] returns an error for a line read by the
    loop (a read that did not end at end of file), what follows depends on
    the case of the switch the line took.  In the run-header case the error
    is the failure of [runLineParser] wrapped with [errFatal]; it is logged
    and the loop is left at this line, the buffer still holding it.  In the
    default case the error is "Unknown line type encountered", the store of
    the parsers is untouched, and the loop logs it, empties the buffer,
    resets the timer and goes on.  In the four data cases the error is the
    one the parser of that case returned, unchanged, and the loop goes on
    in the same way unless that error itself wraps [errFatal]. *)
Theorem X23_failure_handling_by_case (PS : Type) (P : LineParsers PS)
    (waitTime : Z) (gatlingVersion : string)
    (st : TailState PS) (p : Poll) (ps1 : PS) (e : error) :
  pl_done p = false ->
  pl_err p <> RdEOF ->
  stringProcessor P (buf st ++ pl_bytes p) gatlingVersion (pstate st) = (ps1, Some e) ->
  (lineKind (buf st ++ pl_bytes p) = KRun ->
     (exists e0,
         runLineParser P (buf st ++ pl_bytes p) (pstate st) = (ps1, Some e0)
         /\ e = ErrorfW (Error_text e0 ++ ": ") (Sentinel errFatal))
     /\ parseLoopBody P waitTime gatlingVersion st p
        = (mkTailState (buf st ++ pl_bytes p) (startWait st) ps1,
           (readLog p ++ [LogStringProcessingFailed e; LogCannotHandle])%list,
           BreakParseLoop)
     /\ forall rest,
         parseLoop P waitTime gatlingVersion st (p :: rest)
         = (mkTailState (buf st ++ pl_bytes p) (startWait st) ps1,
            (readLog p ++ [LogStringProcessingFailed e; LogCannotHandle])%list,
            true))
  /\ (lineKind (buf st ++ pl_bytes p) = KUnknown ->
      e = Errorf "Unknown line type encountered" /\ ps1 = pstate st
      /\ parseLoopBody P waitTime gatlingVersion st p
         = (mkTailState "" (pl_now p) ps1,
            (readLog p ++ [LogStringProcessingFailed e])%list, Continue))
  /\ (lineKind (buf st ++ pl_bytes p) <> KRun ->
      lineKind (buf st ++ pl_bytes p) <> KUnknown ->
      (ps1, Some e)
      = match lineKind (buf st ++ pl_bytes p) with
        | KRequest => requestLineParser P (buf st ++ pl_bytes p) (pstate st)
        | KGroup => groupLineParser P (buf st ++ pl_bytes p) (pstate st)
        | KUser => userLineParser P (buf st ++ pl_bytes p) (pstate st)
        | _ => errorLineParser P (buf st ++ pl_bytes p) (pstate st)
        end
      /\ parseLoopBody P waitTime gatlingVersion st p
         = if errors_Is e errFatal
           then (mkTailState (buf st ++ pl_bytes p) (startWait st) ps1,
                 (readLog p ++ [LogStringProcessingFailed e; LogCannotHandle])%list,
                 BreakParseLoop)
           else (mkTailState "" (pl_now p) ps1,
                 (readLog p ++ [LogStringProcessingFailed e])%list, Continue)).
Proof.
  intros Hdone Hneof Hsp.
  assert (Hbody : parseLoopBody P waitTime gatlingVersion st p =
            if errors_Is e errFatal
            then (mkTailState (buf st ++ pl_bytes p) (startWait st) ps1,
                  (readLog p ++ [LogStringProcessingFailed e; LogCannotHandle])%list,
                  BreakParseLoop)
            else (mkTailState "" (pl_now p) ps1,
                  (readLog p ++ [LogStringProcessingFailed e])%list, Continue)).
  { unfold parseLoopBody, readLog. rewrite Hdone.
    destruct (pl_err p) as [| |e0]; [|congruence|]; rewrite Hsp; reflexivity. }
  split; [|split].
  - intro Hk. unfold stringProcessor in Hsp. rewrite Hk in Hsp.
    destruct (runLineParser P (buf st ++ pl_bytes p) (pstate st)) as [ps2 [e0|]] eqn:Er;
      [|discriminate].
    injection Hsp as -> <-.
    split; [exists e0; split; reflexivity|].
    cbn [errors_Is sentinel_eqb] in Hbody.
    split; [exact Hbody|].
    intro rest. cbn [parseLoop]. rewrite Hbody. reflexivity.
  - intro Hk. unfold stringProcessor in Hsp. rewrite Hk in Hsp.
    injection Hsp as <- <-. repeat split. exact Hbody.
  - intros Hnr Hnu. split; [|exact Hbody].
    unfold stringProcessor in Hsp.
    destruct (lineKind (buf st ++ pl_bytes p)); congruence.
Qed.

(** A REQUEST line with too few fields is logged and skipped; a RUN line
    with too few fields (and no "GROUP" in it) stops the loop. *)
Lemma X23_failure_handling_by_case_witness :
  parseLoopBody sample_parsers 5 "3.9" (mkTailState "" 0 O)
    (mkPoll false sample_line_request_short RdNil 7)
  = (mkTailState "" 7 O,
     [LogStringProcessingFailed (Errorf "REQUEST line contains unexpected amount of values")],
     Continue)
  /\ parseLoopBody sample_parsers 5 "3.9" (mkTailState "" 0 O)
       (mkPoll false sample_line_run_short RdNil 7)
     = (mkTailState sample_line_run_short 0 O,
        [LogStringProcessingFailed
           (ErrorfW "RUN line contains unexpected amount of values: " (Sentinel errFatal));
         LogCannotHandle],
        BreakParseLoop).
Proof.
  split.
  - destruct (X23_failure_handling_by_case sample_parsers 5 "3.9"
                (mkTailState "" 0 O)
                (mkPoll false sample_line_request_short RdNil 7) (ps1 := O)
                (e := Errorf "REQUEST line contains unexpected amount of values"))
      as (_ & _ & H).
    + reflexivity.
    + discriminate.
    + vm_compute; reflexivity.
    + destruct H as [_ H]; [vm_compute; discriminate | vm_compute; discriminate |].
      exact H.
  - destruct (X23_failure_handling_by_case sample_parsers 5 "3.9"
                (mkTailState "" 0 O)
                (mkPoll false sample_line_run_short RdNil 7) (ps1 := O)
                (e := ErrorfW "RUN line contains unexpected amount of values: "
                        (Sentinel errFatal)))
      as (H & _).
    + reflexivity.
    + discriminate.
    + vm_compute; reflexivity.
    + apply H. vm_compute; reflexivity.
Defined.
